(** * theme-toggle.js: a shallow embedding and its verified properties

    The script [src/theme-toggle.js] toggles a page between a light and a
    dark theme on Ctrl/Cmd+Shift+L and restores the saved choice on load.
    It talks to three pieces of browser state: the presentation attributes
    of [<html>] and [<body>], [localStorage], and the elements of the page
    (to find a theme button the host site may already have).

    The embedding keeps the script's own structure: every DOM or storage
    access is a primitive of a small state-and-exception monad, and the
    script's functions are written with it statement by statement, [try]
    and [catch] included. *)

From stdpp Require Import gmap strings list.
From Stdlib Require Import Ascii.

Open Scope string_scope.
Open Scope list_scope.

(** ** Strings as the script uses them *)

(** [String.prototype.toLowerCase], on the ASCII range. *)
Definition lower_ascii (c : ascii) : ascii :=
  let n := nat_of_ascii c in
  if (65 <=? n)%nat && (n <=? 90)%nat then ascii_of_nat (n + 32) else c.

Fixpoint toLowerCase (s : string) : string :=
  match s with
  | EmptyString => EmptyString
  | String c r => String (lower_ascii c) (toLowerCase r)
  end.

(** [s.includes(sub)]. *)
Definition includes (s sub : string) : bool :=
  match String.index 0 sub s with
  | Some _ => true
  | None => false
  end.

(** JavaScript truthiness of a value that is a string or [null]:
    [null] and the empty string are falsy. *)
Definition truthy (v : option string) : bool :=
  match v with
  | Some s => negb (String.eqb s "")
  | None => false
  end.

(** ** DOMTokenList: the ordered set behind [classList] *)

Module TokenList.

Definition contains (tok : string) (l : list string) : bool :=
  existsb (String.eqb tok) l.

(** [add] appends a token that is not there yet. *)
Definition add (tok : string) (l : list string) : list string :=
  if contains tok l then l else l ++ [tok].

(** [remove] drops every occurrence of the token. *)
Definition remove (tok : string) (l : list string) : list string :=
  List.filter (fun c => negb (String.eqb tok c)) l.

End TokenList.

(** ** The page *)

(** An element of the page, with what the script looks at: its tag name
    (lower case), the attributes the selectors test, its class tokens,
    whether it is rendered ([offsetParent !== null]) and the [outerHTML] of
    its [<svg>] descendants in document order. *)
Record Element := mkElement {
  tag : string;
  aria_label : option string;
  data_testid : option string;
  class_tokens : list string;
  rendered : bool;
  svgs : list string
}.

(** The four selector shapes of the script's list. *)
Inductive Selector :=
  | ButtonAriaLabel (sub : string)   (* button[aria-label*="sub"] *)
  | DataTestid (sub : string)        (* [data-testid*="sub"] *)
  | ClassIs (tok : string)           (* .tok *)
  | ClassAttr (sub : string).        (* [class*="sub"] *)

Definition attr_includes (a : option string) (sub : string) : bool :=
  match a with
  | Some v => includes v sub
  | None => false
  end.

(** Whether an element matches a selector.  The two [class*=] patterns of
    the script contain no white space, so the class attribute contains the
    pattern exactly when one of its tokens does. *)
Definition matches (sel : Selector) (e : Element) : bool :=
  match sel with
  | ButtonAriaLabel sub => String.eqb (tag e) "button" && attr_includes (aria_label e) sub
  | DataTestid sub => attr_includes (data_testid e) sub
  | ClassIs tok => TokenList.contains tok (class_tokens e)
  | ClassAttr sub => existsb (fun c => includes c sub) (class_tokens e)
  end.

Definition is_button (e : Element) : bool := String.eqb (tag e) "button".

(** ** Events *)

Record KeyboardEvent := mkKeyboardEvent {
  ctrlKey : bool;
  metaKey : bool;
  shiftKey : bool;
  key : string;
  keyCode : nat
}.

Record CustomEvent := mkCustomEvent {
  event_type : string;
  detail_theme : string
}.

(** ** Exceptions and the accesses that may raise them *)

Inductive Exn :=
  | SecurityError
  | QuotaExceededError
  | TypeError
  | SyntaxError
  | OtherError (msg : string).

Inductive Node := Html | Body.

(** Every DOM or storage access the script makes.  Each call site of one
    run of an operation has its own label. *)
Inductive Access :=
  | ClassContains (n : Node)
  | ClassAdd (n : Node)
  | ClassRemove (n : Node)
  | GetAttribute
  | SetAttribute
  | GetItem (k : string)
  | SetItem (k : string)
  | NewCustomEvent
  | DispatchDocument
  | DispatchWindow
  | OffsetHeight
  | QuerySelector (sel : Selector)
  | QuerySelectorAll
  | OffsetParent (e : Element)
  | QuerySvg (e : Element)
  | OuterHTML (e : Element)
  | Click (e : Element).

(** ** The world the script runs in *)

Record World := mkWorld {
  (* presentation attributes *)
  html_classes : list string;
  html_data_theme : option string;
  body_classes : list string;
  (* the page's elements other than <html> and <body>, in document order *)
  elements : list Element;
  (* localStorage *)
  storage : gmap string string;
  (* the environment: which accesses raise, and what *)
  raises : Access -> option Exn;
  (* what the script did that others can see *)
  console : list (string * Exn);
  document_events : list CustomEvent;
  window_events : list CustomEvent;
  clicks : list Element;
  default_prevented : bool;
  propagation_stopped : bool;
  (* ghost: every exception raised so far *)
  thrown : list Exn;
  (* the root elements: how many of [elements] come before <body> in document
     order (<head> and what is below it), and the [data-testid] attributes of
     <html> and <body> *)
  body_position : nat;
  root_testid : Node -> option string
}.

Definition classes_of (n : Node) (w : World) : list string :=
  match n with
  | Html => html_classes w
  | Body => body_classes w
  end.

Definition set_classes (n : Node) (l : list string) (w : World) : World :=
  match n with
  | Html =>
      mkWorld l (html_data_theme w) (body_classes w) (elements w) (storage w)
        (raises w) (console w) (document_events w) (window_events w) (clicks w)
        (default_prevented w) (propagation_stopped w) (thrown w)
        (body_position w) (root_testid w)
  | Body =>
      mkWorld (html_classes w) (html_data_theme w) l (elements w) (storage w)
        (raises w) (console w) (document_events w) (window_events w) (clicks w)
        (default_prevented w) (propagation_stopped w) (thrown w)
        (body_position w) (root_testid w)
  end.

Definition set_data_theme (v : option string) (w : World) : World :=
  mkWorld (html_classes w) v (body_classes w) (elements w) (storage w)
    (raises w) (console w) (document_events w) (window_events w) (clicks w)
    (default_prevented w) (propagation_stopped w) (thrown w)
    (body_position w) (root_testid w).

Definition set_storage (s : gmap string string) (w : World) : World :=
  mkWorld (html_classes w) (html_data_theme w) (body_classes w) (elements w) s
    (raises w) (console w) (document_events w) (window_events w) (clicks w)
    (default_prevented w) (propagation_stopped w) (thrown w)
    (body_position w) (root_testid w).

Definition set_console (c : list (string * Exn)) (w : World) : World :=
  mkWorld (html_classes w) (html_data_theme w) (body_classes w) (elements w)
    (storage w) (raises w) c (document_events w) (window_events w) (clicks w)
    (default_prevented w) (propagation_stopped w) (thrown w)
    (body_position w) (root_testid w).

Definition set_document_events (l : list CustomEvent) (w : World) : World :=
  mkWorld (html_classes w) (html_data_theme w) (body_classes w) (elements w)
    (storage w) (raises w) (console w) l (window_events w) (clicks w)
    (default_prevented w) (propagation_stopped w) (thrown w)
    (body_position w) (root_testid w).

Definition set_window_events (l : list CustomEvent) (w : World) : World :=
  mkWorld (html_classes w) (html_data_theme w) (body_classes w) (elements w)
    (storage w) (raises w) (console w) (document_events w) l (clicks w)
    (default_prevented w) (propagation_stopped w) (thrown w)
    (body_position w) (root_testid w).

Definition set_clicks (l : list Element) (w : World) : World :=
  mkWorld (html_classes w) (html_data_theme w) (body_classes w) (elements w)
    (storage w) (raises w) (console w) (document_events w) (window_events w) l
    (default_prevented w) (propagation_stopped w) (thrown w)
    (body_position w) (root_testid w).

Definition set_suppressed (w : World) : World :=
  mkWorld (html_classes w) (html_data_theme w) (body_classes w) (elements w)
    (storage w) (raises w) (console w) (document_events w) (window_events w)
    (clicks w) true true (thrown w)
    (body_position w) (root_testid w).

Definition set_thrown (l : list Exn) (w : World) : World :=
  mkWorld (html_classes w) (html_data_theme w) (body_classes w) (elements w)
    (storage w) (raises w) (console w) (document_events w) (window_events w)
    (clicks w) (default_prevented w) (propagation_stopped w) l
    (body_position w) (root_testid w).

(** ** The monad: state, and exceptions that [try]/[catch] can handle *)

Inductive Outcome (A : Type) :=
  | Val (a : A)
  | Raise (e : Exn).
Arguments Val {A} a.
Arguments Raise {A} e.

Definition M (A : Type) : Type := World -> Outcome A * World.

Definition ret {A} (a : A) : M A := fun w => (Val a, w).

Definition bind {A B} (m : M A) (k : A -> M B) : M B :=
  fun w =>
    match m w with
    | (Val a, w') => k a w'
    | (Raise e, w') => (Raise e, w')
    end.

(** [try { m } catch (e) { h e }]. *)
Definition try_catch {A} (m : M A) (h : Exn -> M A) : M A :=
  fun w =>
    match m w with
    | (Val a, w') => (Val a, w')
    | (Raise e, w') => h e w'
    end.

(** One access: it raises what the environment says, before any effect,
    or it runs. *)
Definition access {A} (a : Access) (f : World -> A * World) : M A :=
  fun w =>
    match raises w a with
    | Some e => (Raise e, set_thrown (thrown w ++ [e]) w)
    | None => let (x, w') := f w in (Val x, w')
    end.

Declare Scope js_scope.
Delimit Scope js_scope with js.
Notation "'let*' x ':=' m 'in' k" := (bind m (fun x => k))
  (at level 10, x name, m at level 100, k at level 200) : js_scope.
Notation "m '>>' k" := (bind m (fun _ => k))
  (at level 90, right associativity) : js_scope.
Open Scope js_scope.

Definition run {A} (m : M A) (w : World) : World := snd (m w).
Definition outcome {A} (m : M A) (w : World) : Outcome A := fst (m w).

(** The operation completed without an exception reaching its end. *)
Definition returns {A} (m : M A) (w : World) : Prop :=
  match outcome m w with
  | Val _ => True
  | Raise _ => False
  end.

(** ** The browser primitives the script calls *)

Definition classList_contains (n : Node) (tok : string) : M bool :=
  access (ClassContains n) (fun w => (TokenList.contains tok (classes_of n w), w)).

Definition classList_add (n : Node) (tok : string) : M unit :=
  access (ClassAdd n) (fun w => (tt, set_classes n (TokenList.add tok (classes_of n w)) w)).

Definition classList_remove (n : Node) (tok : string) : M unit :=
  access (ClassRemove n) (fun w => (tt, set_classes n (TokenList.remove tok (classes_of n w)) w)).

(** [html.getAttribute('data-theme')]: [null] when the attribute is absent. *)
Definition getAttribute_data_theme : M (option string) :=
  access GetAttribute (fun w => (html_data_theme w, w)).

Definition setAttribute_data_theme (v : string) : M unit :=
  access SetAttribute (fun w => (tt, set_data_theme (Some v) w)).

Definition getItem (k : string) : M (option string) :=
  access (GetItem k) (fun w => (storage w !! k, w)).

Definition setItem (k v : string) : M unit :=
  access (SetItem k) (fun w => (tt, set_storage (<[k := v]> (storage w)) w)).

Definition new_CustomEvent (type theme : string) : M CustomEvent :=
  access NewCustomEvent (fun w => (mkCustomEvent type theme, w)).

Definition document_dispatchEvent (ev : CustomEvent) : M unit :=
  access DispatchDocument (fun w => (tt, set_document_events (document_events w ++ [ev]) w)).

Definition window_dispatchEvent (ev : CustomEvent) : M unit :=
  access DispatchWindow (fun w => (tt, set_window_events (window_events w ++ [ev]) w)).

Definition offsetHeight : M unit :=
  access OffsetHeight (fun w => (tt, w)).

(** [console.warn(msg, error)]. *)
Definition console_warn (msg : string) (e : Exn) : M unit :=
  fun w => (Val tt, set_console (console w ++ [(msg, e)]) w).

(** The root elements as the selectors see them.  They carry the classes
    the script toggles, they are never rendered ([offsetParent] of <html> and
    of <body> is [null]) and they are no buttons, so that their [aria-label]
    and their [<svg>] descendants are never looked at. *)
Definition html_element (w : World) : Element :=
  mkElement "html" None (root_testid w Html) (html_classes w) false [].

Definition body_element (w : World) : Element :=
  mkElement "body" None (root_testid w Body) (body_classes w) false [].

(** The whole document in document order: <html>, what precedes <body>,
    <body>, and the rest. *)
Definition document_elements (w : World) : list Element :=
  html_element w :: take (body_position w) (elements w) ++
  body_element w :: drop (body_position w) (elements w).

(** [document.querySelector(sel)]: the first match in document order. *)
Definition querySelector (sel : Selector) : M (option Element) :=
  access (QuerySelector sel)
    (fun w => (List.find (matches sel) (document_elements w), w)).

(** [document.querySelectorAll('button')]. *)
Definition querySelectorAll_button : M (list Element) :=
  access QuerySelectorAll
    (fun w => (List.filter is_button (document_elements w), w)).

(** [e.offsetParent !== null]. *)
Definition offsetParent_not_null (e : Element) : M bool :=
  access (OffsetParent e) (fun w => (rendered e, w)).

(** [button.querySelector('svg')]: the first [<svg>] below the button. *)
Definition querySelector_svg (e : Element) : M (option string) :=
  access (QuerySvg e) (fun w => (head (svgs e), w)).

Definition outerHTML (e : Element) (svg : string) : M string :=
  access (OuterHTML e) (fun w => (svg, w)).

Definition click (e : Element) : M unit :=
  access (Click e) (fun w => (tt, set_clicks (clicks w ++ [e]) w)).

(** [event.preventDefault(); event.stopPropagation();] *)
Definition suppress_event : M unit :=
  fun w => (Val tt, set_suppressed w).

(** ** The script *)

Definition THEME_STORAGE_KEY : string := "mintlify-theme-preference".
Definition MINTLIFY_THEME_KEY : string := "theme".

Definition selectors : list Selector :=
  [ ButtonAriaLabel "theme";
    ButtonAriaLabel "dark";
    ButtonAriaLabel "light";
    ButtonAriaLabel "mode";
    DataTestid "theme";
    DataTestid "toggle";
    ClassIs "theme-toggle";
    ClassAttr "theme-toggle";
    ClassAttr "mode-toggle" ].

(** One round of the first loop: the [try] block, with [catch] going on to
    the next selector.  [true] stands for the [return true]. *)
Definition try_selector (sel : Selector) : M bool :=
  try_catch
    (let* button := querySelector sel in
     match button with
     | Some b =>
         let* visible := offsetParent_not_null b in
         if visible then click b >> ret true else ret false
     | None => ret false
     end)
    (fun _ => ret false).

Fixpoint selector_loop (sels : list Selector) : M bool :=
  match sels with
  | [] => ret false
  | sel :: rest =>
      let* clicked := try_selector sel in
      if clicked then ret true else selector_loop rest
  end.

Definition has_icon_hint (svgHTML : string) : bool :=
  includes svgHTML "sun" || includes svgHTML "moon" ||
  includes svgHTML "light" || includes svgHTML "dark".

(** The second loop, over all buttons; it runs inside one [try]. *)
Fixpoint icon_loop (buttons : list Element) : M bool :=
  match buttons with
  | [] => ret false
  | button :: rest =>
      let* visible := offsetParent_not_null button in
      if negb visible then icon_loop rest
      else
        let* svg := querySelector_svg button in
        match svg with
        | Some s =>
            let* html := outerHTML button s in
            if has_icon_hint (toLowerCase html)
            then click button >> ret true
            else icon_loop rest
        | None => icon_loop rest
        end
  end.

Definition clickThemeToggleButton : M bool :=
  let* clicked := selector_loop selectors in
  if clicked then ret true
  else
    try_catch
      (let* allButtons := querySelectorAll_button in icon_loop allButtons)
      (fun _ => ret false).

(** The condition [isDark] of [toggleTheme], with the short circuit of [||]. *)
Definition read_isDark : M bool :=
  let* c := classList_contains Html "dark" in
  if c then ret true
  else
    let* a := getAttribute_data_theme in
    if bool_decide (a = Some "dark") then ret true
    else classList_contains Body "dark".

(** The body of the [try] block of [toggleTheme]. *)
Definition toggleTheme_try : M unit :=
  let* isDark := read_isDark in
  (if isDark : bool then
     classList_remove Html "dark" >>
     setAttribute_data_theme "light" >>
     classList_remove Body "dark" >>
     setItem THEME_STORAGE_KEY "light" >>
     setItem MINTLIFY_THEME_KEY "light"
   else
     classList_add Html "dark" >>
     setAttribute_data_theme "dark" >>
     classList_add Body "dark" >>
     setItem THEME_STORAGE_KEY "dark" >>
     setItem MINTLIFY_THEME_KEY "dark") >>
  let* themeChangeEvent :=
    new_CustomEvent "themechange" (if isDark then "light" else "dark") in
  document_dispatchEvent themeChangeEvent >>
  window_dispatchEvent themeChangeEvent >>
  offsetHeight.

Definition toggleTheme : M unit :=
  try_catch toggleTheme_try (console_warn "Theme toggle failed:").

(** The body of the [try] block of [applySavedTheme]. *)
Definition applySavedTheme_try : M unit :=
  let* first := getItem THEME_STORAGE_KEY in
  let* savedTheme :=
    if truthy first then ret first else getItem MINTLIFY_THEME_KEY in
  if truthy savedTheme then
    if bool_decide (savedTheme = Some "dark") then
      classList_add Html "dark" >>
      setAttribute_data_theme "dark" >>
      classList_add Body "dark"
    else
      classList_remove Html "dark" >>
      setAttribute_data_theme "light" >>
      classList_remove Body "dark"
  else ret tt.

Definition applySavedTheme : M unit :=
  try_catch applySavedTheme_try (console_warn "Could not apply saved theme:").

Definition is_shortcut (event : KeyboardEvent) : bool :=
  (ctrlKey event || metaKey event) && shiftKey event &&
  (String.eqb (key event) "L" || String.eqb (key event) "l" || (keyCode event =? 76)%nat).

Definition handleKeyboardShortcut (event : KeyboardEvent) : M unit :=
  if is_shortcut event then
    suppress_event >>
    let* buttonClicked := clickThemeToggleButton in
    if negb buttonClicked then toggleTheme else ret tt
  else ret tt.

(** ** Vocabulary of the properties *)

(** The three dark indicators [toggleTheme] inspects. *)
Record Presentation := mkPresentation {
  html_dark : bool;
  data_theme : option string;
  body_dark : bool
}.

Definition presentation (w : World) : Presentation :=
  {| html_dark := TokenList.contains "dark" (html_classes w);
     data_theme := html_data_theme w;
     body_dark := TokenList.contains "dark" (body_classes w) |}.

Definition all_dark : Presentation := mkPresentation true (Some "dark") true.
Definition all_light : Presentation := mkPresentation false (Some "light") false.

(** The page shows the dark theme when any indicator says so. *)
Definition is_dark (w : World) : bool :=
  TokenList.contains "dark" (html_classes w)
  || bool_decide (html_data_theme w = Some "dark")
  || TokenList.contains "dark" (body_classes w).

Definition theme_name (dark : bool) : string := if dark then "dark" else "light".

Definition current_theme (w : World) : string := theme_name (is_dark w).

(** The three indicators agree. *)
Definition uniform (w : World) : Prop :=
  presentation w = all_dark \/ presentation w = all_light.

Definition themechange (theme : string) : CustomEvent :=
  mkCustomEvent "themechange" theme.

(** Going from [w] to [w'], one [themechange] event with the given theme
    reached the document and the window. *)
Definition reports_theme (theme : string) (w w' : World) : Prop :=
  document_events w' = document_events w ++ [themechange theme] /\
  window_events w' = window_events w ++ [themechange theme].

(** Accesses to the presentation attributes. *)
Definition dom_access (a : Access) : bool :=
  match a with
  | ClassContains _ | ClassAdd _ | ClassRemove _ | GetAttribute | SetAttribute => true
  | _ => false
  end.

(** Accesses of the search for a host control. *)
Definition search_access (a : Access) : bool :=
  match a with
  | QuerySelector _ | QuerySelectorAll | OffsetParent _ | QuerySvg _
  | OuterHTML _ | Click _ => true
  | _ => false
  end.

Definition presentation_accessible (w : World) : Prop :=
  forall a, dom_access a = true -> raises w a = None.

Definition search_accessible (w : World) : Prop :=
  forall a, search_access a = true -> raises w a = None.

(** Both storage keys hold the theme the page shows. *)
Definition keys_agree (w : World) : Prop :=
  storage w !! THEME_STORAGE_KEY = Some (current_theme w) /\
  storage w !! MINTLIFY_THEME_KEY = Some (current_theme w).

(** The page, its presentation attributes and the storage are as they were. *)
Definition same_page_and_storage (w w' : World) : Prop :=
  html_classes w' = html_classes w /\
  html_data_theme w' = html_data_theme w /\
  body_classes w' = body_classes w /\
  elements w' = elements w /\
  storage w' = storage w.

(** Going from [w] to [w'], every exception raised was reported by one
    [console.warn] with the given message, and at most one was raised. *)
Definition warned (msg : string) (w w' : World) : Prop :=
  exists l : list Exn,
    thrown w' = thrown w ++ l /\
    console w' = console w ++ List.map (fun e => (msg, e)) l /\
    (length l <= 1)%nat.

(** An operation catches what is raised inside it and logs a warning for it. *)
Definition caught_and_warned {A} (m : M A) (w : World) : Prop :=
  (exists a, outcome m w = Val a) /\
  (thrown (run m w) <> thrown w -> console (run m w) <> console w).

(** What the search does not touch: everything but [clicks] and [thrown]. *)
Definition search_frame (w w' : World) : Prop :=
  html_classes w' = html_classes w /\
  html_data_theme w' = html_data_theme w /\
  body_classes w' = body_classes w /\
  elements w' = elements w /\
  storage w' = storage w /\
  raises w' = raises w /\
  console w' = console w /\
  document_events w' = document_events w /\
  window_events w' = window_events w /\
  default_prevented w' = default_prevented w /\
  propagation_stopped w' = propagation_stopped w.

(** *** The host control the search finds when nothing raises *)

(** A selector finds the first element it matches, and only if that one is
    rendered. *)
Definition selector_hit (els : list Element) (sel : Selector) : option Element :=
  match List.find (matches sel) els with
  | Some b => if rendered b then Some b else None
  | None => None
  end.

Fixpoint first_selector_hit (els : list Element) (sels : list Selector) : option Element :=
  match sels with
  | [] => None
  | sel :: rest =>
      match selector_hit els sel with
      | Some b => Some b
      | None => first_selector_hit els rest
      end
  end.

(** A button counts by its icon when it is rendered and its first [<svg>]
    carries a hint. *)
Definition icon_button (b : Element) : bool :=
  rendered b &&
  match head (svgs b) with
  | Some s => has_icon_hint (toLowerCase s)
  | None => false
  end.

Definition host_control (els : list Element) : option Element :=
  match first_selector_hit els selectors with
  | Some b => Some b
  | None => List.find icon_button (List.filter is_button els)
  end.

(** A host control exists, read as widely as the words allow: some element
    is rendered and matched by some selector, or some rendered button has an
    [<svg>] with a hint. *)
Definition control_exists (els : list Element) : bool :=
  existsb (fun sel => existsb (fun e => matches sel e && rendered e) els) selectors
  || existsb (fun b => is_button b && rendered b &&
                       existsb (fun s => has_icon_hint (toLowerCase s)) (svgs b)) els.

(** What a piece of the search leaves behind: the frame, and one click on a
    rendered element of the page when it answers [true], none otherwise. *)
Definition search_result (w : World) (o : Outcome bool) (w' : World) : Prop :=
  search_frame w w' /\
  match o with
  | Val true =>
      exists b, clicks w' = clicks w ++ [b] /\ In b (elements w) /\ rendered b = true
  | _ => clicks w' = clicks w
  end.

(** What the search answers and does when it finds [hit]. *)
Definition found (w : World) (hit : option Element) : Outcome bool * World :=
  match hit with
  | Some b => (Val true, set_clicks (clicks w ++ [b]) w)
  | None => (Val false, w)
  end.

(** ** Sample pages and environments *)

Definition never_raises : Access -> option Exn := fun _ => None.

(** [localStorage] is full: every write raises. *)
Definition quota_full : Access -> option Exn :=
  fun a => match a with SetItem _ => Some QuotaExceededError | _ => None end.

(** The second write raises, the first goes through. *)
Definition second_write_fails : Access -> option Exn :=
  fun a =>
    match a with
    | SetItem k => if String.eqb k MINTLIFY_THEME_KEY then Some QuotaExceededError else None
    | _ => None
    end.

(** Selector queries raise. *)
Definition selectors_unsupported : Access -> option Exn :=
  fun a => match a with QuerySelector _ => Some SyntaxError | _ => None end.

Definition page (hc : list string) (dt : option string) (bc : list string)
    (els : list Element) (st : gmap string string) (env : Access -> option Exn) : World :=
  mkWorld hc dt bc els st env [] [] [] [] false false [] 0 (fun _ => None).

(** A page as served: no theme class, no [data-theme], empty storage. *)
Definition fresh_page : World := page [] None [] [] ∅ never_raises.

Definition dark_page : World :=
  page ["dark"] (Some "dark") ["dark"] [] ∅ never_raises.

Definition light_page : World :=
  page ["docs"] (Some "light") [] [] ∅ never_raises.

Definition hidden_toggle : Element :=
  mkElement "button" (Some "Toggle theme") None ["lg:hidden"] false [].

Definition visible_toggle : Element :=
  mkElement "button" (Some "Toggle theme") None [] true [].

Definition icon_toggle : Element :=
  mkElement "button" None None [] true ["<svg class='lucide lucide-Sun'></svg>"].

Definition ctrl_shift_L : KeyboardEvent := mkKeyboardEvent true false true "L" 76.

Definition two_toggles : list Element := [hidden_toggle; visible_toggle].

(** Both keys disagree: the first says dark, the second something else. *)
Definition mixed_storage : gmap string string :=
  <[MINTLIFY_THEME_KEY := "blue"]> (<[THEME_STORAGE_KEY := "dark"]> ∅).

(** ** The script's start-up, and the document that runs it *)

Inductive ReadyState := Loading | Interactive | Complete.

(** The document the script is loaded into: its [readyState], which of the
    script's two callbacks are registered on it, and the world. *)
Record Document := mkDocument {
  readyState : ReadyState;
  domContentLoaded_listener : bool;  (* the anonymous function of the [if] branch *)
  keydown_listener : bool;           (* [handleKeyboardShortcut] *)
  world : World
}.

(** [applySavedTheme(); document.addEventListener('keydown', handleKeyboardShortcut);]
    An exception out of the first statement would skip the second. *)
Definition init (d : Document) : Outcome unit * Document :=
  match applySavedTheme (world d) with
  | (Val _, w') =>
      (Val tt, mkDocument (readyState d) (domContentLoaded_listener d) true w')
  | (Raise e, w') =>
      (Raise e, mkDocument (readyState d) (domContentLoaded_listener d) (keydown_listener d) w')
  end.

(** The last statement of the script. *)
Definition main (d : Document) : Outcome unit * Document :=
  match readyState d with
  | Loading => (Val tt, mkDocument Loading true (keydown_listener d) (world d))
  | _ => init d
  end.

(** The browser fires [DOMContentLoaded]: the document is no longer loading,
    and the callback runs if it was registered. *)
Definition fire_DOMContentLoaded (d : Document) : Document :=
  let d' := mkDocument Interactive (domContentLoaded_listener d)
              (keydown_listener d) (world d) in
  if domContentLoaded_listener d then snd (init d') else d'.

(** The browser delivers a key press to the document. *)
Definition fire_keydown (event : KeyboardEvent) (d : Document) : Document :=
  if keydown_listener d then
    mkDocument (readyState d) (domContentLoaded_listener d) (keydown_listener d)
      (run (handleKeyboardShortcut event) (world d))
  else d.


(** The elements clicked when the search finds [hit]. *)
Definition clicked (hit : option Element) : list Element :=
  match hit with
  | Some b => [b]
  | None => []
  end.

(** Selector queries raise and nothing else in the search does. *)
Definition only_selectors_raise (w : World) : Prop :=
  (forall sel, raises w (QuerySelector sel) <> None) /\
  raises w QuerySelectorAll = None /\
  (forall b, raises w (OffsetParent b) = None /\ raises w (QuerySvg b) = None /\
             raises w (OuterHTML b) = None /\ raises w (Click b) = None).

(** A page with one icon button, where selector queries raise. *)
Definition legacy_page : World :=
  page [] None [] [hidden_toggle; icon_toggle] ∅ selectors_unsupported.

(** A visible button found by its class, and a page whose <html> carries
    that class too. *)
Definition class_toggle : Element :=
  mkElement "button" None None ["theme-toggle"] true [].

Definition themed_root_page : World :=
  page ["theme-toggle"] None [] [class_toggle] ∅ never_raises.

Definition stored_dark : gmap string string := <[MINTLIFY_THEME_KEY := "dark"]> ∅.

(** The script starts in a document that is still loading, storage blocked. *)
Definition blocked_storage : Access -> option Exn :=
  fun a => match a with GetItem _ | SetItem _ => Some SecurityError | _ => None end.

(** * Proofs *)

(** ** The model on small inputs *)

Example includes_inside : includes "moonlight" "light" = true.
Proof. reflexivity. Qed.

Example includes_is_case_sensitive : includes "<svg class='Sun'/>" "sun" = false.
Proof. reflexivity. Qed.

Example toLowerCase_letters_only : toLowerCase "<SVG id='Z@[1'>" = "<svg id='z@[1'>".
Proof. reflexivity. Qed.

Example class_attr_matches_inside_token :
  matches (ClassAttr "theme-toggle") (mkElement "div" None None ["x-theme-toggle-y"] true []) = true /\
  matches (ClassIs "theme-toggle") (mkElement "div" None None ["x-theme-toggle-y"] true []) = false.
Proof. split; reflexivity. Qed.

Example first_toggle_flips_fresh_page :
  presentation (run toggleTheme fresh_page) = all_dark /\
  storage (run toggleTheme fresh_page) !! MINTLIFY_THEME_KEY = Some "dark".
Proof. split; reflexivity. Qed.

Example icon_button_is_found :
  host_control [hidden_toggle; icon_toggle] = Some icon_toggle.
Proof. reflexivity. Qed.

(** ** Token lists *)

Lemma contains_add tok l : TokenList.contains tok (TokenList.add tok l) = true.
Proof.
  unfold TokenList.add.
  destruct (TokenList.contains tok l) eqn:E; [exact E|].
  unfold TokenList.contains. rewrite existsb_app. simpl.
  rewrite String.eqb_refl. apply orb_true_iff. right. reflexivity.
Qed.

Lemma contains_remove tok l : TokenList.contains tok (TokenList.remove tok l) = false.
Proof.
  unfold TokenList.contains, TokenList.remove.
  induction l as [|c l IH]; simpl; [reflexivity|].
  destruct (String.eqb tok c) eqn:E; simpl; [exact IH|].
  rewrite E. exact IH.
Qed.

(** Tokens other than the one added or removed stay. *)
Lemma contains_add_other tok c l :
  tok <> c -> TokenList.contains c (TokenList.add tok l) = TokenList.contains c l.
Proof.
  intros Hne. unfold TokenList.add.
  destruct (TokenList.contains tok l); [reflexivity|].
  unfold TokenList.contains. rewrite existsb_app. simpl.
  destruct (String.eqb_spec c tok) as [->|_]; [contradiction|].
  rewrite !orb_false_r. reflexivity.
Qed.

Lemma contains_remove_other tok c l :
  tok <> c -> TokenList.contains c (TokenList.remove tok l) = TokenList.contains c l.
Proof.
  intros Hne. unfold TokenList.contains, TokenList.remove.
  induction l as [|d l IH]; simpl; [reflexivity|].
  destruct (String.eqb_spec tok d) as [->|Hd]; simpl.
  - destruct (String.eqb_spec c d) as [->|_]; [contradiction|]. exact IH.
  - rewrite IH. reflexivity.
Qed.

(** ** Running the script symbolically *)

Ltac unfold_script :=
  unfold keys_agree, same_page_and_storage, returns, reports_theme, warned,
    caught_and_warned, run, outcome,
    toggleTheme, toggleTheme_try, read_isDark,
    applySavedTheme, applySavedTheme_try,
    try_catch, bind, ret, classList_contains, classList_add, classList_remove,
    getAttribute_data_theme, setAttribute_data_theme, getItem, setItem,
    new_CustomEvent, document_dispatchEvent, window_dispatchEvent, offsetHeight,
    console_warn, access in *.

(** One branching point of the run: an access that may raise, or a test. *)
Ltac case_step :=
  match goal with
  | H : context [match ?rs ?a with Some _ => _ | None => _ end] |- _ =>
      is_var rs; destruct (rs a) eqn:?
  | |- context [match ?rs ?a with Some _ => _ | None => _ end] =>
      is_var rs; destruct (rs a) eqn:?
  | H : context [if ?b then _ else _] |- _ =>
      lazymatch type of b with bool => destruct b eqn:? end
  | |- context [if ?b then _ else _] =>
      lazymatch type of b with bool => destruct b eqn:? end
  end.

(** A comparison of two known strings went the wrong way. *)
Ltac absurd_decide :=
  match goal with
  | H : bool_decide (Some ?a = Some ?b) = _ |- _ => vm_compute in H; discriminate H
  end.

Ltac close_absurd :=
  try contradiction; try discriminate; try congruence; try absurd_decide.

Ltac exec :=
  unfold_script; simpl in *;
  repeat (case_step; simpl in *; close_absurd).

(** The same, using what is known about the storage after every step. *)
Ltac exec_using rew :=
  unfold_script; simpl in *; rew; simpl in *;
  repeat (case_step; simpl in *; rew; simpl in *; close_absurd).

(** What [presentation_accessible] says, access by access. *)
Lemma accessible_cases w :
  presentation_accessible w ->
  raises w (ClassContains Html) = None /\ raises w (ClassContains Body) = None /\
  raises w (ClassAdd Html) = None /\ raises w (ClassAdd Body) = None /\
  raises w (ClassRemove Html) = None /\ raises w (ClassRemove Body) = None /\
  raises w GetAttribute = None /\ raises w SetAttribute = None.
Proof. intros H. repeat split; apply H; reflexivity. Qed.

Ltac use_accessible H :=
  apply accessible_cases in H; simpl in H;
  destruct H as (? & ? & ? & ? & ? & ? & ? & ?).

Lemma keys_differ : THEME_STORAGE_KEY <> MINTLIFY_THEME_KEY.
Proof. discriminate. Qed.

(** ** What one toggle does *)

(** The environment is not the script's to change. *)
Lemma toggleTheme_raises w : raises (run toggleTheme w) = raises w.
Proof.
  destruct w as [hc dt bc els st rs co de we cl dp ps th bp rt].
  exec; reflexivity.
Qed.

(** With the presentation attributes accessible, a toggle makes the three
    indicators agree on the other theme, whatever storage and events do. *)
Lemma toggleTheme_flips w :
  presentation_accessible w ->
  presentation (run toggleTheme w) = (if is_dark w then all_light else all_dark).
Proof.
  destruct w as [hc dt bc els st rs co de we cl dp ps th bp rt].
  intros H. use_accessible H. unfold presentation, is_dark.
  exec; rewrite ?contains_add, ?contains_remove; reflexivity.
Qed.

Lemma toggleTheme_accessible w :
  presentation_accessible w -> presentation_accessible (run toggleTheme w).
Proof.
  intros H a Ha. rewrite toggleTheme_raises. apply H, Ha.
Qed.

Lemma is_dark_presentation w w' :
  presentation w = presentation w' -> is_dark w = is_dark w'.
Proof.
  unfold presentation, is_dark. intros H. injection H as -> -> ->. reflexivity.
Qed.

Lemma toggleTheme_clicks w : clicks (run toggleTheme w) = clicks w.
Proof.
  destruct w as [hc dt bc els st rs co de we cl dp ps th bp rt].
  exec; reflexivity.
Qed.

(** ** The document the selectors see *)

Lemma find_app {A} (f : A -> bool) (l1 l2 : list A) :
  List.find f (l1 ++ l2) =
  match List.find f l1 with
  | Some x => Some x
  | None => List.find f l2
  end.
Proof.
  induction l1 as [|x l1 IH]; simpl; [reflexivity|].
  destruct (f x); [reflexivity|exact IH].
Qed.


(** What is in the document and is not a root element is one of [elements]. *)
Lemma document_in_elements w b :
  In b (document_elements w) ->
  b = html_element w \/ b = body_element w \/ In b (elements w).
Proof.
  assert (Hpart : forall x,
             In x (take (body_position w) (elements w)) \/
             In x (drop (body_position w) (elements w)) -> In x (elements w)).
  { intros x Hx. rewrite <- (take_drop (body_position w) (elements w)).
    apply in_or_app. exact Hx. }
  unfold document_elements. intros [H|H]; [left; symmetry; exact H|].
  apply in_app_or in H.
  destruct H as [H|[H|H]].
  - right. right. apply Hpart. left. exact H.
  - right. left. symmetry. exact H.
  - right. right. apply Hpart. right. exact H.
Qed.

Lemma document_rendered_in w b :
  In b (document_elements w) -> rendered b = true -> In b (elements w).
Proof.
  intros H Hr.
  destruct (document_in_elements w b H) as [->|[->|Hin]];
    [discriminate Hr|discriminate Hr|exact Hin].
Qed.

Lemma document_button_in w b :
  In b (document_elements w) -> is_button b = true -> In b (elements w).
Proof.
  intros H Hb.
  destruct (document_in_elements w b H) as [->|[->|Hin]];
    [discriminate Hb|discriminate Hb|exact Hin].
Qed.

(** The root elements are no buttons. *)
Lemma buttons_of_document w :
  List.filter is_button (document_elements w) = List.filter is_button (elements w).
Proof.
  unfold document_elements. simpl.
  rewrite List.filter_app. simpl. rewrite <- List.filter_app, take_drop.
  reflexivity.
Qed.

(** A root element in front of the first match can only make a selector
    miss: in the document a selector finds what it finds among [elements],
    or nothing. *)
Lemma selector_hit_document w sel :
  selector_hit (document_elements w) sel = None \/
  selector_hit (document_elements w) sel = selector_hit (elements w) sel.
Proof.
  assert (Hf : List.find (matches sel) (elements w) =
               match List.find (matches sel) (take (body_position w) (elements w)) with
               | Some x => Some x
               | None => List.find (matches sel) (drop (body_position w) (elements w))
               end).
  { rewrite <- find_app, take_drop. reflexivity. }
  unfold selector_hit, document_elements. rewrite Hf.
  simpl. destruct (matches sel (html_element w)); simpl; [left; reflexivity|].
  rewrite find_app.
  destruct (List.find (matches sel) (take (body_position w) (elements w)));
    [right; reflexivity|].
  simpl. destruct (matches sel (body_element w)); simpl; [left; reflexivity|].
  right. reflexivity.
Qed.

Lemma host_control_document_none w :
  host_control (elements w) = None -> host_control (document_elements w) = None.
Proof.
  unfold host_control. rewrite buttons_of_document.
  assert (H : forall sels, first_selector_hit (elements w) sels = None ->
                           first_selector_hit (document_elements w) sels = None).
  { induction sels as [|sel rest IH]; simpl; [reflexivity|].
    destruct (selector_hit_document w sel) as [->| ->].
    - destruct (selector_hit (elements w) sel); [discriminate|exact IH].
    - destruct (selector_hit (elements w) sel); [discriminate|exact IH]. }
  destruct (first_selector_hit (elements w) selectors) eqn:E; [discriminate|].
  rewrite (H selectors E). intros Hi. exact Hi.
Qed.

(** The search sees the same document after a click or an exception, and
    after the event was suppressed. *)
Lemma document_set_thrown l w : document_elements (set_thrown l w) = document_elements w.
Proof. reflexivity. Qed.

Lemma document_set_clicks l w : document_elements (set_clicks l w) = document_elements w.
Proof. reflexivity. Qed.


(** From here on the document is used through the lemmas above. *)
Opaque document_elements.

(** ** The search for a host control *)

(** The root elements count: a class on <html> that a selector matches
    hides the button behind it, because <html> is the first match and is
    never rendered. *)
Example root_class_hides_toggle :
  outcome clickThemeToggleButton themed_root_page = Val false /\
  outcome clickThemeToggleButton (page [] None [] [class_toggle] ∅ never_raises) = Val true.
Proof. split; vm_compute; reflexivity. Qed.

Lemma search_frame_refl w : search_frame w w.
Proof. unfold search_frame. auto 12. Qed.

Lemma search_frame_thrown w l : search_frame w (set_thrown l w).
Proof. unfold search_frame. simpl. auto 12. Qed.

Lemma search_frame_clicks w l : search_frame w (set_clicks l w).
Proof. unfold search_frame. simpl. auto 12. Qed.

Lemma search_frame_trans w1 w2 w3 :
  search_frame w1 w2 -> search_frame w2 w3 -> search_frame w1 w3.
Proof.
  unfold search_frame.
  intros (?&?&?&?&?&?&?&?&?&?&?) (?&?&?&?&?&?&?&?&?&?&?).
  repeat split; congruence.
Qed.

(** A piece that answered [false] or raised, followed by another piece. *)
Lemma search_result_then w1 w2 w3 o1 o :
  search_result w1 o1 w2 -> o1 <> Val true ->
  search_result w2 o w3 -> search_result w1 o w3.
Proof.
  intros [F1 C1] Hn [F2 C2]. split; [eapply search_frame_trans; eassumption|].
  assert (Hc : clicks w2 = clicks w1).
  { destruct o1 as [[|]|]; [contradiction Hn; reflexivity|exact C1|exact C1]. }
  assert (He : elements w2 = elements w1) by apply F1.
  destruct o as [[|]|]; rewrite <- ?Hc, <- ?He; exact C2.
Qed.

Create HintDb search.
#[local] Hint Resolve search_frame_refl search_frame_thrown search_frame_clicks : search.

Ltac search_unfold :=
  unfold try_selector, try_catch, bind, ret, querySelector, querySelectorAll_button,
    offsetParent_not_null, querySelector_svg, outerHTML, click, access.

Lemma try_selector_result sel w :
  exists b w', try_selector sel w = (Val b, w') /\ search_result w (Val b) w'.
Proof.
  search_unfold.
  destruct (raises w (QuerySelector sel)) as [e|]; simpl.
  { exists false. eexists. split; [reflexivity|]. split; auto with search. }
  destruct (List.find (matches sel) (document_elements w)) as [b|] eqn:Hfind; simpl.
  2:{ exists false. eexists. split; [reflexivity|]. split; auto with search. }
  destruct (raises w (OffsetParent b)) as [e|]; simpl.
  { exists false. eexists. split; [reflexivity|]. split; auto with search. }
  destruct (rendered b) eqn:Hb; simpl.
  2:{ exists false. eexists. split; [reflexivity|]. split; auto with search. }
  destruct (raises w (Click b)) as [e|]; simpl.
  { exists false. eexists. split; [reflexivity|]. split; auto with search. }
  exists true. eexists. split; [reflexivity|]. split; [auto with search|].
  exists b. simpl. apply find_some in Hfind.
  pose proof (document_rendered_in w b (proj1 Hfind) Hb). tauto.
Qed.

Lemma selector_loop_result sels w :
  exists b w', selector_loop sels w = (Val b, w') /\ search_result w (Val b) w'.
Proof.
  revert w. induction sels as [|sel rest IH]; intros w; simpl.
  { exists false, w. split; [reflexivity|]. split; auto with search. }
  destruct (try_selector_result sel w) as (b1 & w1 & E1 & R1).
  unfold bind at 1. rewrite E1.
  destruct b1.
  - exists true, w1. split; [reflexivity|exact R1].
  - destruct (IH w1) as (b & w' & E & R).
    exists b, w'. split; [exact E|].
    eapply search_result_then; [exact R1|discriminate|exact R].
Qed.

Lemma icon_loop_result buttons w :
  incl buttons (elements w) ->
  exists o w', icon_loop buttons w = (o, w') /\ search_result w o w'.
Proof.
  induction buttons as [|b rest IH]; intros Hin; simpl.
  { exists (Val false), w. split; [reflexivity|]. split; auto with search. }
  assert (Hb : In b (elements w)) by (apply Hin; left; reflexivity).
  assert (Hrest : incl rest (elements w)) by (intros x Hx; apply Hin; right; exact Hx).
  specialize (IH Hrest). destruct IH as (o & w' & E & R).
  search_unfold.
  destruct (raises w (OffsetParent b)) as [e|]; simpl.
  { do 2 eexists. split; [reflexivity|]. split; auto with search. }
  destruct (rendered b) eqn:Hr; simpl.
  2:{ exists o, w'. split; [exact E|exact R]. }
  destruct (raises w (QuerySvg b)) as [e|]; simpl.
  { do 2 eexists. split; [reflexivity|]. split; auto with search. }
  destruct (head (svgs b)) as [s|]; simpl.
  2:{ exists o, w'. split; [exact E|exact R]. }
  destruct (raises w (OuterHTML b)) as [e|]; simpl.
  { do 2 eexists. split; [reflexivity|]. split; auto with search. }
  destruct (has_icon_hint (toLowerCase s)); simpl.
  2:{ exists o, w'. split; [exact E|exact R]. }
  destruct (raises w (Click b)) as [e|]; simpl.
  { do 2 eexists. split; [reflexivity|]. split; auto with search. }
  exists (Val true). eexists. split; [reflexivity|]. split; [auto with search|].
  exists b. simpl. tauto.
Qed.

(** The search always answers, and leaves the frame and at most one click. *)
Lemma clickThemeToggleButton_result w :
  exists b w', clickThemeToggleButton w = (Val b, w') /\ search_result w (Val b) w'.
Proof.
  unfold clickThemeToggleButton.
  destruct (selector_loop_result selectors w) as (b1 & w1 & E1 & R1).
  unfold bind at 1. rewrite E1.
  destruct b1.
  { exists true, w1. split; [reflexivity|exact R1]. }
  unfold try_catch, bind, querySelectorAll_button, access, ret.
  destruct (raises w1 QuerySelectorAll) as [e|]; simpl.
  { exists false. eexists. split; [reflexivity|].
    eapply search_result_then; [exact R1|discriminate|].
    split; auto with search. }
  destruct (icon_loop_result (List.filter is_button (document_elements w1)) w1)
    as (o & w' & E & R).
  { intros x Hx. apply filter_In in Hx.
    exact (document_button_in w1 x (proj1 Hx) (proj2 Hx)). }
  rewrite E.
  destruct o as [b|e].
  - exists b, w'. split; [reflexivity|].
    eapply search_result_then; [exact R1|discriminate|exact R].
  - exists false, w'. split; [reflexivity|].
    eapply search_result_then; [exact R1|discriminate|].
    destruct R as [F C]. split; [exact F|exact C].
Qed.

(** *** The search when nothing raises *)

Lemma try_selector_quiet sel w :
  search_accessible w ->
  try_selector sel w = found w (selector_hit (document_elements w) sel).
Proof.
  intros Hq. search_unfold. unfold selector_hit.
  rewrite (Hq (QuerySelector sel) eq_refl). simpl.
  destruct (List.find (matches sel) (document_elements w)) as [b|]; simpl; [|reflexivity].
  rewrite (Hq (OffsetParent b) eq_refl). simpl.
  destruct (rendered b); simpl; [|reflexivity].
  rewrite (Hq (Click b) eq_refl). reflexivity.
Qed.

Lemma selector_loop_quiet sels w :
  search_accessible w ->
  selector_loop sels w = found w (first_selector_hit (document_elements w) sels).
Proof.
  intros Hq. induction sels as [|sel rest IH]; simpl; [reflexivity|].
  unfold bind at 1. rewrite (try_selector_quiet sel w Hq).
  destruct (selector_hit (document_elements w) sel); simpl; [reflexivity|exact IH].
Qed.

Lemma icon_loop_quiet buttons w :
  search_accessible w ->
  icon_loop buttons w = found w (List.find icon_button buttons).
Proof.
  intros Hq. induction buttons as [|b rest IH]; simpl; [reflexivity|].
  search_unfold. unfold icon_button.
  rewrite (Hq (OffsetParent b) eq_refl). simpl.
  destruct (rendered b); simpl; [|exact IH].
  rewrite (Hq (QuerySvg b) eq_refl). simpl.
  destruct (head (svgs b)) as [s|]; simpl; [|exact IH].
  rewrite (Hq (OuterHTML b) eq_refl). simpl.
  destruct (has_icon_hint (toLowerCase s)); simpl; [|exact IH].
  rewrite (Hq (Click b) eq_refl). reflexivity.
Qed.

Lemma clickThemeToggleButton_quiet w :
  search_accessible w ->
  clickThemeToggleButton w = found w (host_control (document_elements w)).
Proof.
  intros Hq. unfold clickThemeToggleButton, host_control.
  unfold bind at 1. rewrite (selector_loop_quiet selectors w Hq).
  destruct (first_selector_hit (document_elements w) selectors); simpl; [reflexivity|].
  unfold try_catch, bind, querySelectorAll_button, access.
  rewrite (Hq QuerySelectorAll eq_refl). simpl.
  rewrite (icon_loop_quiet _ w Hq).
  destruct (List.find icon_button (List.filter is_button (document_elements w)));
    reflexivity.
Qed.

(** * The claims *)

(** ** C1 *)

(** C1, as stated, fails: on a page that shows the dark theme the toggle
    dispatches [themechange] with theme ["light"], the theme after the
    toggle, and not the theme that was active before it. *)
Lemma toggle_event_is_not_old_theme :
  current_theme dark_page = "dark" /\
  document_events (run toggleTheme dark_page) = [themechange "light"] /\
  window_events (run toggleTheme dark_page) = [themechange "light"] /\
  ~ reports_theme (current_theme dark_page) dark_page (run toggleTheme dark_page).
Proof.
  repeat split; try reflexivity.
  intros [H _]. vm_compute in H. discriminate H.
Qed.

(** C1, amended: when the toggle completes without an exception, it
    dispatches exactly one [themechange] event on the document and one on
    the window, and the event's theme is the theme of the page after the
    toggle, the opposite of the theme before it. *)
Theorem toggle_event_reports_new_theme (w : World) :
  returns toggleTheme_try w ->
  reports_theme (current_theme (run toggleTheme w)) w (run toggleTheme w) /\
  current_theme (run toggleTheme w) = theme_name (negb (is_dark w)).
Proof.
  destruct w as [hc dt bc els st rs co de we cl dp ps th bp rt].
  unfold current_theme, is_dark. intros H.
  exec; rewrite ?contains_add, ?contains_remove; simpl; auto.
Qed.

Lemma toggle_event_reports_new_theme_witness :
  returns toggleTheme_try dark_page /\
  reports_theme "light" dark_page (run toggleTheme dark_page).
Proof.
  split; [exact I|].
  exact (proj1 (toggle_event_reports_new_theme dark_page I)).
Defined.

(** ** C2 *)

(** C2, as stated, fails: a page served without a [data-theme] attribute
    has [data-theme="light"] after two toggles. *)
Lemma double_toggle_changes_fresh_page :
  presentation fresh_page = mkPresentation false None false /\
  presentation (run toggleTheme (run toggleTheme fresh_page)) = all_light /\
  presentation (run toggleTheme (run toggleTheme fresh_page)) <> presentation fresh_page.
Proof.
  repeat split; try reflexivity. vm_compute. discriminate.
Qed.

(** C2, amended: when the three indicators agree at the start (all dark, or
    all light with [data-theme="light"]) and the presentation attributes can
    be accessed, two toggles bring the presentation attributes back to what
    they were; storage may fail meanwhile. *)
Theorem double_toggle_restores_uniform (w : World) :
  uniform w ->
  presentation_accessible w ->
  presentation (run toggleTheme (run toggleTheme w)) = presentation w.
Proof.
  intros Hu Ha.
  pose proof (toggleTheme_flips w Ha) as H1.
  pose proof (toggleTheme_flips _ (toggleTheme_accessible w Ha)) as H2.
  rewrite H2. clear H2.
  assert (Hd : is_dark (run toggleTheme w) = negb (is_dark w)).
  { destruct (is_dark w) eqn:E.
    - apply (is_dark_presentation _ light_page) in H1. exact H1.
    - apply (is_dark_presentation _ dark_page) in H1. exact H1. }
  rewrite Hd.
  destruct Hu as [Hu|Hu]; rewrite Hu.
  - rewrite (is_dark_presentation w dark_page Hu). reflexivity.
  - rewrite (is_dark_presentation w light_page Hu). reflexivity.
Qed.

Lemma double_toggle_restores_uniform_witness :
  uniform dark_page /\ presentation_accessible dark_page /\
  presentation (run toggleTheme (run toggleTheme dark_page)) = presentation dark_page.
Proof.
  assert (Hu : uniform dark_page) by (left; reflexivity).
  assert (Ha : presentation_accessible dark_page) by (intros a _; reflexivity).
  split; [exact Hu|]. split; [exact Ha|].
  exact (double_toggle_restores_uniform dark_page Hu Ha).
Defined.

(** ** C3 *)

(** C3: the code misses the claim on a page whose first button labelled
    "Toggle theme" is hidden and whose second is visible.  A matching host
    control exists, but [querySelector] hands back the hidden button, the
    selector is given up, the search answers [false] without a click, and
    the manual toggle runs and writes both storage keys. *)
Lemma shortcut_misses_second_match :
  let w := page [] None [] two_toggles ∅ never_raises in
  let w' := run (handleKeyboardShortcut ctrl_shift_L) w in
  is_shortcut ctrl_shift_L = true /\
  control_exists (elements w) = true /\
  outcome clickThemeToggleButton (set_suppressed w) = Val false /\
  clicks w' = [] /\
  presentation w' = all_dark /\
  storage w' !! THEME_STORAGE_KEY = Some "dark" /\
  storage w' !! MINTLIFY_THEME_KEY = Some "dark".
Proof. vm_compute. repeat split; reflexivity. Qed.

(** ** C4 *)

(** C4: after a toggle that completes without an exception both storage
    keys hold the same value, the theme the page now shows; and when the
    shortcut finds no host control, the handler's run is that toggle, so it
    leaves both keys with that value too. *)
Theorem toggle_keeps_keys_consistent (w : World) :
  returns toggleTheme_try w ->
  keys_agree (run toggleTheme w) /\
  forall (event : KeyboardEvent) (w0 : World),
    is_shortcut event = true ->
    clickThemeToggleButton (set_suppressed w0) = (Val false, w) ->
    keys_agree (run (handleKeyboardShortcut event) w0).
Proof.
  intros H.
  assert (Hk : keys_agree (run toggleTheme w)).
  { destruct w as [hc dt bc els st rs co de we cl dp ps th bp rt].
    unfold keys_agree, current_theme, is_dark.
    exec; rewrite ?contains_add, ?contains_remove; simpl;
      rewrite lookup_insert_eq, (lookup_insert_ne _ _ _ _ (not_eq_sym keys_differ)),
        lookup_insert_eq; auto. }
  split; [exact Hk|].
  intros event w0 Hs Hc.
  unfold handleKeyboardShortcut, run, bind, suppress_event. rewrite Hs.
  rewrite Hc. simpl. exact Hk.
Qed.

Lemma toggle_keeps_keys_consistent_witness :
  let w := set_suppressed fresh_page in
  returns toggleTheme_try w /\
  keys_agree (run toggleTheme w) /\
  keys_agree (run (handleKeyboardShortcut ctrl_shift_L) fresh_page).
Proof.
  intros w.
  assert (Hr : returns toggleTheme_try w) by exact I.
  split; [exact Hr|].
  split.
  - exact (proj1 (toggle_keeps_keys_consistent w Hr)).
  - exact (proj2 (toggle_keeps_keys_consistent w Hr) ctrl_shift_L fresh_page
             eq_refl eq_refl).
Defined.

(** ** C5 *)

(** C5: the preference is read from the first key, and from the second when
    the first holds nothing (or the empty string); when the value read is
    ["dark"] and the operation completes without an exception, the page ends
    with the ['dark'] class on [<html>] and [<body>] and
    [data-theme="dark"]. *)
Theorem apply_dark_sets_dark (w : World) :
  returns applySavedTheme_try w ->
  storage w !! THEME_STORAGE_KEY = Some "dark" \/
  (truthy (storage w !! THEME_STORAGE_KEY) = false /\
   storage w !! MINTLIFY_THEME_KEY = Some "dark") ->
  presentation (run applySavedTheme w) = all_dark.
Proof.
  destruct w as [hc dt bc els st rs co de we cl dp ps th bp rt].
  unfold presentation. intros H Hs. cbn [storage] in Hs.
  destruct Hs as [Hs|[Hf Hs]].
  - exec_using ltac:(rewrite ?Hs in * ).
    rewrite !contains_add. reflexivity.
  - exec_using ltac:(rewrite ?Hf, ?Hs in * ).
    rewrite !contains_add. reflexivity.
Qed.

Lemma apply_dark_sets_dark_witness :
  let w := page [] None [] [] (<[MINTLIFY_THEME_KEY := "dark"]> ∅) never_raises in
  returns applySavedTheme_try w /\
  (truthy (storage w !! THEME_STORAGE_KEY) = false /\
   storage w !! MINTLIFY_THEME_KEY = Some "dark") /\
  presentation (run applySavedTheme w) = all_dark.
Proof.
  intros w.
  assert (Hr : returns applySavedTheme_try w) by (vm_compute; exact I).
  assert (Hs : truthy (storage w !! THEME_STORAGE_KEY) = false /\
               storage w !! MINTLIFY_THEME_KEY = Some "dark")
    by (split; reflexivity).
  split; [exact Hr|]. split; [exact Hs|].
  exact (apply_dark_sets_dark w Hr (or_intror Hs)).
Defined.

(** ** C6 *)

(** C6: when neither key holds a preference, [applySavedTheme] leaves the
    classes of [<html>] and [<body>], the [data-theme] attribute, the page
    and the storage as they were, in every environment. *)
Theorem apply_without_preference_changes_nothing (w : World) :
  storage w !! THEME_STORAGE_KEY = None ->
  storage w !! MINTLIFY_THEME_KEY = None ->
  same_page_and_storage w (run applySavedTheme w).
Proof.
  destruct w as [hc dt bc els st rs co de we cl dp ps th bp rt].
  cbn [storage]. intros H1 H2.
  exec_using ltac:(rewrite ?H1, ?H2 in * ); auto 6.
Qed.

Lemma apply_without_preference_changes_nothing_witness :
  storage fresh_page !! THEME_STORAGE_KEY = None /\
  storage fresh_page !! MINTLIFY_THEME_KEY = None /\
  same_page_and_storage fresh_page (run applySavedTheme fresh_page).
Proof.
  split; [reflexivity|]. split; [reflexivity|].
  exact (apply_without_preference_changes_nothing fresh_page eq_refl eq_refl).
Defined.

(** ** C7 *)



(** ** C8 *)

(** C8: the toggle looks at the presentation attributes only.  Two runs
    that start with the same indicators, in environments that agree on the
    accesses to them, end with the same indicators, whatever the two
    storages hold and whether or not their writes fail. *)
Theorem toggle_ignores_storage (w1 w2 : World) :
  presentation w1 = presentation w2 ->
  (forall a, dom_access a = true -> raises w1 a = raises w2 a) ->
  presentation (run toggleTheme w1) = presentation (run toggleTheme w2).
Proof.
  destruct w1 as [hc dt bc els st rs co de we cl dp ps th bp rt].
  destruct w2 as [hc' dt' bc' els' st' rs' co' de' we' cl' dp' ps' th' bp' rt'].
  unfold presentation. simpl. intros Hp Hr.
  injection Hp as Hh <- Hb.
  pose proof (Hr (ClassContains Html) eq_refl) as E1.
  pose proof (Hr (ClassContains Body) eq_refl) as E2.
  pose proof (Hr (ClassAdd Html) eq_refl) as E3.
  pose proof (Hr (ClassAdd Body) eq_refl) as E4.
  pose proof (Hr (ClassRemove Html) eq_refl) as E5.
  pose proof (Hr (ClassRemove Body) eq_refl) as E6.
  pose proof (Hr GetAttribute eq_refl) as E7.
  pose proof (Hr SetAttribute eq_refl) as E8.
  clear Hr.
  exec_using ltac:(rewrite ?E1, ?E2, ?E3, ?E4, ?E5, ?E6, ?E7, ?E8, ?Hh, ?Hb).
  all: rewrite ?contains_add, ?contains_remove; congruence.
Qed.

Lemma toggle_ignores_storage_witness :
  let w1 := page ["dark"] None [] [] ∅ quota_full in
  let w2 := page ["dark"; "docs"] None [] [] mixed_storage never_raises in
  presentation w1 = presentation w2 /\
  (forall a, dom_access a = true -> raises w1 a = raises w2 a) /\
  presentation (run toggleTheme w1) = presentation (run toggleTheme w2).
Proof.
  intros w1 w2.
  assert (Hp : presentation w1 = presentation w2) by reflexivity.
  assert (Hr : forall a, dom_access a = true -> raises w1 a = raises w2 a).
  { intros a Ha. destruct a; try discriminate Ha; reflexivity. }
  split; [exact Hp|]. split; [exact Hr|].
  exact (toggle_ignores_storage w1 w2 Hp Hr).
Defined.

(** ** C9 *)

(** C9: when the preference read (the first key's value, or the second's
    when the first holds nothing) is a non-empty string other than ["dark"]
    and the operation completes without an exception, the page is made
    light: no ['dark'] class on [<html>] and [<body>], and
    [data-theme="light"]. *)
Theorem apply_other_value_is_light (w : World) (v : string) :
  returns applySavedTheme_try w ->
  v <> "" -> v <> "dark" ->
  storage w !! THEME_STORAGE_KEY = Some v \/
  (truthy (storage w !! THEME_STORAGE_KEY) = false /\
   storage w !! MINTLIFY_THEME_KEY = Some v) ->
  presentation (run applySavedTheme w) = all_light.
Proof.
  destruct w as [hc dt bc els st rs co de we cl dp ps th bp rt].
  unfold presentation. intros H Hne Hnd Hs. cbn [storage] in Hs.
  assert (Ht : truthy (Some v) = true).
  { simpl. destruct (String.eqb_spec v ""); [contradiction|reflexivity]. }
  assert (Hb : bool_decide (Some v = Some "dark") = false).
  { apply bool_decide_eq_false. intros [= ->]. contradiction. }
  destruct Hs as [Hs|[Hf Hs]].
  - exec_using ltac:(rewrite ?Hs, ?Ht, ?Hb in * ).
    rewrite !contains_remove. reflexivity.
  - exec_using ltac:(rewrite ?Hf, ?Hs, ?Ht, ?Hb in * ).
    rewrite !contains_remove. reflexivity.
Qed.

Lemma apply_other_value_is_light_witness :
  let w := page ["dark"] (Some "dark") ["dark"] []
             (<[THEME_STORAGE_KEY := "blue"]> ∅) never_raises in
  returns applySavedTheme_try w /\ "blue" <> "" /\ "blue" <> "dark" /\
  storage w !! THEME_STORAGE_KEY = Some "blue" /\
  presentation (run applySavedTheme w) = all_light.
Proof.
  intros w.
  assert (Hr : returns applySavedTheme_try w) by (vm_compute; exact I).
  assert (H1 : "blue" <> "") by discriminate.
  assert (H2 : "blue" <> "dark") by discriminate.
  assert (Hs : storage w !! THEME_STORAGE_KEY = Some "blue") by reflexivity.
  repeat (split; [assumption|]).
  exact (apply_other_value_is_light w "blue" Hr H1 H2 (or_introl Hs)).
Defined.

(** ** C10 *)

(** C10: the toggle changes the presentation attributes before it writes
    to storage and does not undo that when a write raises.  If the first
    write raises, the page shows the other theme and the storage is as it
    was; if the second raises, only the first key has the new value.  Either
    way the exception ends in one warning and no event is dispatched. *)
Theorem toggle_not_atomic (w : World) (e : Exn) :
  presentation_accessible w ->
  (raises w (SetItem THEME_STORAGE_KEY) = Some e ->
   presentation (run toggleTheme w) = (if is_dark w then all_light else all_dark) /\
   storage (run toggleTheme w) = storage w /\
   console (run toggleTheme w) = console w ++ [("Theme toggle failed:", e)] /\
   document_events (run toggleTheme w) = document_events w /\
   window_events (run toggleTheme w) = window_events w) /\
  (raises w (SetItem THEME_STORAGE_KEY) = None ->
   raises w (SetItem MINTLIFY_THEME_KEY) = Some e ->
   presentation (run toggleTheme w) = (if is_dark w then all_light else all_dark) /\
   storage (run toggleTheme w) =
     <[THEME_STORAGE_KEY := theme_name (negb (is_dark w))]> (storage w) /\
   console (run toggleTheme w) = console w ++ [("Theme toggle failed:", e)] /\
   document_events (run toggleTheme w) = document_events w /\
   window_events (run toggleTheme w) = window_events w).
Proof.
  intros Ha.
  pose proof (toggleTheme_flips w Ha) as Hf.
  destruct w as [hc dt bc els st rs co de we cl dp ps th bp rt].
  use_accessible Ha. unfold is_dark in *. simpl raises.
  split.
  - intros Hw1. split; [exact Hf|]. clear Hf.
    exec; repeat split; congruence.
  - intros Hw1 Hw2. split; [exact Hf|]. clear Hf.
    exec; repeat split; congruence.
Qed.

Lemma toggle_not_atomic_witness :
  let w := page [] None [] [] ∅ quota_full in
  let w2 := page ["dark"] (Some "dark") ["dark"] [] ∅ second_write_fails in
  (presentation_accessible w /\
   presentation (run toggleTheme w) = all_dark /\
   storage (run toggleTheme w) = ∅) /\
  (presentation_accessible w2 /\
   presentation (run toggleTheme w2) = all_light /\
   storage (run toggleTheme w2) = <[THEME_STORAGE_KEY := "light"]> ∅).
Proof.
  intros w w2.
  assert (Ha : presentation_accessible w).
  { intros a Hd. destruct a; try discriminate Hd; reflexivity. }
  assert (Ha2 : presentation_accessible w2).
  { intros a Hd. destruct a; try discriminate Hd; reflexivity. }
  split.
  - split; [exact Ha|].
    pose proof (proj1 (toggle_not_atomic w QuotaExceededError Ha) eq_refl) as H.
    split; [exact (proj1 H)|exact (proj1 (proj2 H))].
  - split; [exact Ha2|].
    pose proof (proj2 (toggle_not_atomic w2 QuotaExceededError Ha2) eq_refl eq_refl) as H.
    split; [exact (proj1 H)|exact (proj1 (proj2 H))].
Defined.

(** * Further properties of the script *)

(** ** Helpers *)

Lemma add_add tok l : TokenList.add tok (TokenList.add tok l) = TokenList.add tok l.
Proof.
  unfold TokenList.add at 1. rewrite contains_add. reflexivity.
Qed.

Lemma remove_remove tok l :
  TokenList.remove tok (TokenList.remove tok l) = TokenList.remove tok l.
Proof.
  unfold TokenList.remove. induction l as [|c l IH]; simpl; [reflexivity|].
  destruct (String.eqb tok c) eqn:E; simpl; [exact IH|].
  rewrite E. simpl. rewrite IH. reflexivity.
Qed.

Lemma toggleTheme_returns w : outcome toggleTheme w = Val tt.
Proof.
  destruct w as [hc dt bc els st rs co de we cl dp ps th bp rt].
  exec; reflexivity.
Qed.

Lemma applySavedTheme_returns w : outcome applySavedTheme w = Val tt.
Proof.
  destruct w as [hc dt bc els st rs co de we cl dp ps th bp rt].
  exec; reflexivity.
Qed.

Lemma toggleTheme_suppressed w :
  default_prevented (run toggleTheme w) = default_prevented w /\
  propagation_stopped (run toggleTheme w) = propagation_stopped w.
Proof.
  destruct w as [hc dt bc els st rs co de we cl dp ps th bp rt].
  exec; split; reflexivity.
Qed.

(** What [applySavedTheme] makes of the first key when it holds a non-empty
    value: the second key is not read. *)
Lemma applySavedTheme_first_key w v :
  returns applySavedTheme_try w ->
  storage w !! THEME_STORAGE_KEY = Some v -> v <> "" ->
  presentation (run applySavedTheme w) =
    (if bool_decide (v = "dark") then all_dark else all_light).
Proof.
  destruct w as [hc dt bc els st rs co de we cl dp ps th bp rt].
  unfold presentation. intros H Hs Hne. cbn [storage] in Hs.
  assert (Ht : truthy (Some v) = true).
  { simpl. destruct (String.eqb_spec v ""); [contradiction|reflexivity]. }
  assert (Hb : bool_decide (Some v = Some "dark") = bool_decide (v = "dark")).
  { apply bool_decide_ext. split; [intros [= ->]|intros ->]; reflexivity. }
  destruct (bool_decide (v = "dark")) eqn:Hd;
    exec_using ltac:(rewrite ?Hs, ?Ht, ?Hb in * );
    rewrite ?contains_add, ?contains_remove; reflexivity.
Qed.

Lemma applySavedTheme_frame w :
  elements (run applySavedTheme w) = elements w /\
  raises (run applySavedTheme w) = raises w /\
  storage (run applySavedTheme w) = storage w /\
  clicks (run applySavedTheme w) = clicks w.
Proof.
  destruct w as [hc dt bc els st rs co de we cl dp ps th bp rt].
  exec; auto.
Qed.

Lemma quiet_returns w :
  (forall a, raises w a = None) ->
  returns toggleTheme_try w /\ returns applySavedTheme_try w.
Proof.
  destruct w as [hc dt bc els st rs co de we cl dp ps th bp rt]. simpl.
  intros H.
  pose proof (H (ClassContains Html)). pose proof (H (ClassContains Body)).
  pose proof (H (ClassAdd Html)). pose proof (H (ClassAdd Body)).
  pose proof (H (ClassRemove Html)). pose proof (H (ClassRemove Body)).
  pose proof (H GetAttribute). pose proof (H SetAttribute).
  pose proof (H (GetItem THEME_STORAGE_KEY)). pose proof (H (GetItem MINTLIFY_THEME_KEY)).
  pose proof (H (SetItem THEME_STORAGE_KEY)). pose proof (H (SetItem MINTLIFY_THEME_KEY)).
  pose proof (H NewCustomEvent). pose proof (H DispatchDocument).
  pose proof (H DispatchWindow). pose proof (H OffsetHeight).
  clear H.
  split; exec; exact I.
Qed.

Lemma toggleTheme_success w :
  returns toggleTheme_try w ->
  storage (run toggleTheme w) !! THEME_STORAGE_KEY = Some (theme_name (negb (is_dark w))) /\
  storage (run toggleTheme w) !! MINTLIFY_THEME_KEY = Some (theme_name (negb (is_dark w))) /\
  presentation (run toggleTheme w) = (if is_dark w then all_light else all_dark).
Proof.
  destruct w as [hc dt bc els st rs co de we cl dp ps th bp rt].
  unfold presentation, is_dark. intros H.
  exec; rewrite ?contains_add, ?contains_remove; simpl;
    rewrite lookup_insert_eq, (lookup_insert_ne _ _ _ _ (not_eq_sym keys_differ)),
      lookup_insert_eq; auto.
Qed.

(** The start-up sequence always gets to register the handler. *)
Lemma init_runs_apply d :
  init d = (Val tt, mkDocument (readyState d) (domContentLoaded_listener d) true
                      (run applySavedTheme (world d))).
Proof.
  unfold init.
  pose proof (applySavedTheme_returns (world d)) as Ho.
  unfold outcome, run in *.
  destruct (applySavedTheme (world d)) as [o w']. simpl in *. subst o. reflexivity.
Qed.

(** *** The search *)

Lemma first_selector_hit_sound els sels b :
  first_selector_hit els sels = Some b ->
  exists sel, In sel sels /\ In b els /\ matches sel b = true /\ rendered b = true.
Proof.
  induction sels as [|sel rest IH]; simpl; [discriminate|].
  unfold selector_hit at 1.
  destruct (List.find (matches sel) els) as [e|] eqn:Hf.
  - destruct (rendered e) eqn:Hr.
    + intros [= <-]. apply find_some in Hf. exists sel. tauto.
    + intros H. destruct (IH H) as (s & ? & ?). exists s. tauto.
  - intros H. destruct (IH H) as (s & ? & ?). exists s. tauto.
Qed.


Lemma selector_loop_all_raise sels w :
  (forall sel, raises w (QuerySelector sel) <> None) ->
  exists l, selector_loop sels w = (Val false, set_thrown (thrown w ++ l) w).
Proof.
  intros Hr. revert w Hr. induction sels as [|sel rest IH]; intros w Hr; simpl.
  { exists []. rewrite app_nil_r. destruct w; reflexivity. }
  unfold bind at 1. unfold try_selector, try_catch, bind, querySelector, access, ret.
  destruct (raises w (QuerySelector sel)) as [e|] eqn:E; [|contradiction (Hr sel E)].
  destruct (IH (set_thrown (thrown w ++ [e]) w) Hr) as (l & El).
  rewrite El. exists (e :: l). simpl.
  rewrite <- app_assoc. reflexivity.
Qed.

Lemma icon_loop_found buttons w :
  (forall b, raises w (OffsetParent b) = None /\ raises w (QuerySvg b) = None /\
             raises w (OuterHTML b) = None /\ raises w (Click b) = None) ->
  icon_loop buttons w = found w (List.find icon_button buttons).
Proof.
  intros Hq. induction buttons as [|b rest IH]; simpl; [reflexivity|].
  destruct (Hq b) as (H1 & H2 & H3 & H4).
  search_unfold. unfold icon_button.
  rewrite H1. simpl.
  destruct (rendered b); simpl; [|exact IH].
  rewrite H2. simpl.
  destruct (head (svgs b)) as [s|]; simpl; [|exact IH].
  rewrite H3. simpl.
  destruct (has_icon_hint (toLowerCase s)); simpl; [|exact IH].
  rewrite H4. reflexivity.
Qed.

(** ** What a toggle leaves alone *)

(** X1: in every environment a toggle adds or removes nothing but the
    ['dark'] token, writes no storage key but its two, and leaves the page's
    elements and the clicks alone. *)
Theorem toggle_touches_only_theme (w : World) :
  (forall c, c <> "dark" ->
     TokenList.contains c (html_classes (run toggleTheme w)) =
       TokenList.contains c (html_classes w) /\
     TokenList.contains c (body_classes (run toggleTheme w)) =
       TokenList.contains c (body_classes w)) /\
  (forall k, k <> THEME_STORAGE_KEY -> k <> MINTLIFY_THEME_KEY ->
     storage (run toggleTheme w) !! k = storage w !! k) /\
  elements (run toggleTheme w) = elements w /\
  clicks (run toggleTheme w) = clicks w.
Proof.
  destruct w as [hc dt bc els st rs co de we cl dp ps th bp rt].
  split; [|split; [|split]].
  - intros c Hc. assert (Hc' : "dark" <> c) by congruence.
    exec; rewrite ?(contains_add_other _ _ _ Hc'), ?(contains_remove_other _ _ _ Hc');
      split; reflexivity.
  - intros k H1 H2.
    exec; rewrite ?lookup_insert_ne by congruence; reflexivity.
  - exec; reflexivity.
  - exec; reflexivity.
Qed.

(** X2: in every environment, a [themechange] event reaches the document or
    the window only after both storage writes went through: by then the page
    shows the other theme, both keys hold it, and the document has received
    the event that names it. *)
Theorem toggle_event_implies_persisted (w : World) :
  document_events (run toggleTheme w) <> document_events w \/
  window_events (run toggleTheme w) <> window_events w ->
  presentation (run toggleTheme w) = (if is_dark w then all_light else all_dark) /\
  keys_agree (run toggleTheme w) /\
  document_events (run toggleTheme w) =
    document_events w ++ [themechange (current_theme (run toggleTheme w))].
Proof.
  destruct w as [hc dt bc els st rs co de we cl dp ps th bp rt].
  unfold keys_agree, current_theme, presentation, is_dark. intros H.
  exec; try (destruct H as [H|H]; congruence);
    rewrite ?contains_add, ?contains_remove; simpl;
    rewrite lookup_insert_eq, (lookup_insert_ne _ _ _ _ (not_eq_sym keys_differ)),
      lookup_insert_eq; auto.
Qed.

Lemma toggle_event_implies_persisted_witness :
  (document_events (run toggleTheme dark_page) <> document_events dark_page \/
   window_events (run toggleTheme dark_page) <> window_events dark_page) /\
  keys_agree (run toggleTheme dark_page).
Proof.
  assert (H : document_events (run toggleTheme dark_page) <> document_events dark_page \/
              window_events (run toggleTheme dark_page) <> window_events dark_page)
    by (left; discriminate).
  split; [exact H|].
  exact (proj1 (proj2 (toggle_event_implies_persisted dark_page H))).
Defined.

(** X3: with the presentation attributes accessible, one toggle makes the
    three indicators agree and flips the theme in effect, from any starting
    state; so two toggles bring the theme in effect back, and a third toggle
    repeats the first. *)
Theorem toggle_flips_theme (w : World) :
  presentation_accessible w ->
  uniform (run toggleTheme w) /\
  is_dark (run toggleTheme w) = negb (is_dark w) /\
  current_theme (run toggleTheme (run toggleTheme w)) = current_theme w /\
  presentation (run toggleTheme (run toggleTheme (run toggleTheme w))) =
    presentation (run toggleTheme w).
Proof.
  intros Ha.
  pose proof (toggleTheme_accessible w Ha) as Ha1.
  pose proof (toggleTheme_accessible _ Ha1) as Ha2.
  pose proof (toggleTheme_flips w Ha) as H1.
  pose proof (toggleTheme_flips _ Ha1) as H2.
  pose proof (toggleTheme_flips _ Ha2) as H3.
  assert (Hd1 : is_dark (run toggleTheme w) = negb (is_dark w)).
  { destruct (is_dark w).
    - exact (is_dark_presentation _ light_page H1).
    - exact (is_dark_presentation _ dark_page H1). }
  rewrite Hd1 in H2.
  assert (Hd2 : is_dark (run toggleTheme (run toggleTheme w)) = is_dark w).
  { destruct (is_dark w).
    - exact (is_dark_presentation _ dark_page H2).
    - exact (is_dark_presentation _ light_page H2). }
  rewrite Hd2 in H3.
  repeat split.
  - unfold uniform. rewrite H1. destruct (is_dark w); auto.
  - exact Hd1.
  - unfold current_theme. rewrite Hd2. reflexivity.
  - rewrite H3, H1. reflexivity.
Qed.

Lemma toggle_flips_theme_witness :
  let w := page ["dark"] (Some "auto") [] [] ∅ quota_full in
  presentation_accessible w /\
  uniform (run toggleTheme w) /\
  is_dark (run toggleTheme w) = false.
Proof.
  intros w.
  assert (Ha : presentation_accessible w).
  { intros a Hd. destruct a; try discriminate Hd; reflexivity. }
  split; [exact Ha|].
  pose proof (toggle_flips_theme w Ha) as H.
  split; [exact (proj1 H)|exact (proj1 (proj2 H))].
Defined.

(** ** What applying the saved theme does and does not do *)

(** X4: applying the saved theme a second time changes nothing, in every
    environment: classes, [data-theme], page and storage are as the first
    application left them. *)
Theorem apply_is_idempotent (w : World) :
  same_page_and_storage (run applySavedTheme w)
    (run applySavedTheme (run applySavedTheme w)).
Proof.
  destruct w as [hc dt bc els st rs co de we cl dp ps th bp rt].
  exec; rewrite ?add_add, ?remove_remove; auto 6.
Qed.

(** X5: [applySavedTheme] only reads the storage: in every environment it
    writes no key, dispatches no event, clicks nothing and leaves the page's
    elements alone. *)
Theorem apply_never_writes (w : World) :
  storage (run applySavedTheme w) = storage w /\
  document_events (run applySavedTheme w) = document_events w /\
  window_events (run applySavedTheme w) = window_events w /\
  clicks (run applySavedTheme w) = clicks w /\
  elements (run applySavedTheme w) = elements w.
Proof.
  destruct w as [hc dt bc els st rs co de we cl dp ps th bp rt].
  exec; auto 6.
Qed.

(** X6: the first key wins.  When it holds a non-empty value, what the
    storage holds elsewhere, the second key included, has no influence on
    the classes and the [data-theme] attribute the operation leaves, and a
    failing read of the second key has none either. *)
Theorem apply_first_key_wins (w1 w2 : World) :
  truthy (storage w1 !! THEME_STORAGE_KEY) = true ->
  storage w2 !! THEME_STORAGE_KEY = storage w1 !! THEME_STORAGE_KEY ->
  html_classes w2 = html_classes w1 ->
  html_data_theme w2 = html_data_theme w1 ->
  body_classes w2 = body_classes w1 ->
  (forall a, a <> GetItem MINTLIFY_THEME_KEY -> raises w2 a = raises w1 a) ->
  html_classes (run applySavedTheme w2) = html_classes (run applySavedTheme w1) /\
  html_data_theme (run applySavedTheme w2) = html_data_theme (run applySavedTheme w1) /\
  body_classes (run applySavedTheme w2) = body_classes (run applySavedTheme w1).
Proof.
  destruct w1 as [hc dt bc els st rs co de we cl dp ps th bp rt].
  destruct w2 as [hc' dt' bc' els' st' rs' co' de' we' cl' dp' ps' th' bp' rt'].
  simpl. intros Ht Hs -> -> -> Hr.
  assert (E0 : rs' (GetItem THEME_STORAGE_KEY) = rs (GetItem THEME_STORAGE_KEY))
    by (apply Hr; discriminate).
  assert (E1 : forall n, rs' (ClassAdd n) = rs (ClassAdd n)) by (intros n; apply Hr; discriminate).
  assert (E2 : forall n, rs' (ClassRemove n) = rs (ClassRemove n))
    by (intros n; apply Hr; discriminate).
  assert (E3 : rs' SetAttribute = rs SetAttribute) by (apply Hr; discriminate).
  clear Hr.
  exec_using ltac:(rewrite ?E0, ?E1, ?E2, ?E3, ?Hs, ?Ht in * ); auto.
Qed.

Lemma apply_first_key_wins_witness :
  let w1 := page [] None [] [] (<[THEME_STORAGE_KEY := "dark"]> ∅) never_raises in
  let w2 := page [] None [] [] mixed_storage never_raises in
  truthy (storage w1 !! THEME_STORAGE_KEY) = true /\
  storage w2 !! THEME_STORAGE_KEY = storage w1 !! THEME_STORAGE_KEY /\
  html_classes (run applySavedTheme w2) = html_classes (run applySavedTheme w1).
Proof.
  intros w1 w2.
  split; [reflexivity|]. split; [reflexivity|].
  exact (proj1 (apply_first_key_wins w1 w2 eq_refl eq_refl eq_refl eq_refl eq_refl
                  (fun _ _ => eq_refl))).
Defined.

(** X7: a key that holds the empty string counts as holding nothing.  When
    each key is absent or empty, the operation changes nothing, in every
    environment. *)
Theorem apply_empty_string_is_no_preference (w : World) :
  storage w !! THEME_STORAGE_KEY = None \/ storage w !! THEME_STORAGE_KEY = Some "" ->
  storage w !! MINTLIFY_THEME_KEY = None \/ storage w !! MINTLIFY_THEME_KEY = Some "" ->
  same_page_and_storage w (run applySavedTheme w).
Proof.
  destruct w as [hc dt bc els st rs co de we cl dp ps th bp rt].
  cbn [storage]. intros [H1|H1] [H2|H2];
    exec_using ltac:(rewrite ?H1, ?H2 in * ); auto 6.
Qed.

Lemma apply_empty_string_is_no_preference_witness :
  let w := page ["dark"] None [] [] (<[THEME_STORAGE_KEY := ""]> ∅) never_raises in
  storage w !! THEME_STORAGE_KEY = Some "" /\
  storage w !! MINTLIFY_THEME_KEY = None /\
  same_page_and_storage w (run applySavedTheme w).
Proof.
  intros w.
  split; [reflexivity|]. split; [reflexivity|].
  exact (apply_empty_string_is_no_preference w (or_intror eq_refl) (or_introl eq_refl)).
Defined.

(** X8: the choice survives a reload.  After a toggle that completed, a
    page that starts from the storage the toggle left, whatever its own
    classes and attribute, is given by [applySavedTheme] the presentation
    the toggle chose. *)
Theorem toggle_then_reload (w w2 : World) :
  returns toggleTheme_try w ->
  storage w2 = storage (run toggleTheme w) ->
  returns applySavedTheme_try w2 ->
  presentation (run applySavedTheme w2) = presentation (run toggleTheme w).
Proof.
  intros Ht Hs Ha.
  destruct (toggleTheme_success w Ht) as (Hk & _ & Hp).
  rewrite <- Hs in Hk. rewrite Hp.
  rewrite (applySavedTheme_first_key w2 _ Ha Hk) by (destruct (is_dark w); discriminate).
  destruct (is_dark w); reflexivity.
Qed.

Lemma toggle_then_reload_witness :
  let w := light_page in
  let w2 := page [] None [] [] (storage (run toggleTheme light_page)) never_raises in
  returns toggleTheme_try w /\
  returns applySavedTheme_try w2 /\
  presentation (run applySavedTheme w2) = all_dark.
Proof.
  intros w w2.
  assert (Ht : returns toggleTheme_try w) by exact I.
  assert (Ha : returns applySavedTheme_try w2) by (vm_compute; exact I).
  split; [exact Ht|]. split; [exact Ha|].
  exact (toggle_then_reload w w2 Ht eq_refl Ha).
Defined.

(** ** The key handler *)

(** X9: a key press that is not the shortcut is left alone.  Without Shift,
    or without both Ctrl and Meta, or with a key that is neither [L] nor [l]
    and a key code other than 76, the handler changes nothing: the event is
    not suppressed, nothing is clicked, nothing is written. *)
Theorem handler_ignores_other_keys (event : KeyboardEvent) (w : World) :
  shiftKey event = false \/
  (ctrlKey event = false /\ metaKey event = false) \/
  (key event <> "L" /\ key event <> "l" /\ keyCode event <> 76%nat) ->
  handleKeyboardShortcut event w = (Val tt, w).
Proof.
  intros H. unfold handleKeyboardShortcut.
  assert (Hs : is_shortcut event = false).
  { unfold is_shortcut. destruct H as [H|[[H1 H2]|(H1 & H2 & H3)]].
    - rewrite H. apply andb_false_iff. left. apply andb_false_r.
    - rewrite H1, H2. reflexivity.
    - apply andb_false_iff. right.
      destruct (String.eqb_spec (key event) "L"); [contradiction|].
      destruct (String.eqb_spec (key event) "l"); [contradiction|].
      destruct (Nat.eqb_spec (keyCode event) 76); [contradiction|reflexivity]. }
  rewrite Hs. reflexivity.
Qed.

Lemma handler_ignores_other_keys_witness :
  let event := mkKeyboardEvent true false false "l" 76 in
  shiftKey event = false /\
  handleKeyboardShortcut event dark_page = (Val tt, dark_page).
Proof.
  intros event. split; [reflexivity|].
  exact (handler_ignores_other_keys event dark_page (or_introl eq_refl)).
Defined.

(** X10: on the shortcut the handler always returns and always suppresses
    the event, in every environment: whether a control was clicked, the
    manual toggle ran, or either of them met exceptions, the default action
    is prevented and the propagation stopped.  Ctrl or Meta with Shift and
    key code 76 is enough, whatever [key] says. *)
Theorem handler_always_suppresses (event : KeyboardEvent) (w : World) :
  (ctrlKey event = true \/ metaKey event = true) ->
  shiftKey event = true ->
  (key event = "L" \/ key event = "l" \/ keyCode event = 76%nat) ->
  outcome (handleKeyboardShortcut event) w = Val tt /\
  default_prevented (run (handleKeyboardShortcut event) w) = true /\
  propagation_stopped (run (handleKeyboardShortcut event) w) = true.
Proof.
  intros Hc Hsh Hk.
  assert (Hs : is_shortcut event = true).
  { unfold is_shortcut. rewrite Hsh.
    assert (H1 : ctrlKey event || metaKey event = true)
      by (destruct Hc as [->| ->]; [reflexivity|apply orb_true_r]).
    rewrite H1. simpl.
    destruct Hk as [->|[->| ->]]; [reflexivity|reflexivity|].
    apply orb_true_r. }
  unfold handleKeyboardShortcut, outcome, run. rewrite Hs.
  unfold bind, suppress_event.
  destruct (clickThemeToggleButton_result (set_suppressed w)) as (b & w1 & E & F & _).
  rewrite E.
  assert (Hd : default_prevented w1 = true /\ propagation_stopped w1 = true).
  { unfold search_frame in F. simpl in F. split; apply F. }
  destruct b; simpl.
  - exact (conj eq_refl Hd).
  - pose proof (toggleTheme_returns w1) as Hr.
    pose proof (toggleTheme_suppressed w1) as [Hp1 Hp2].
    unfold outcome, run in *.
    destruct (toggleTheme w1) as [o w2]. simpl in *. subst o.
    split; [reflexivity|]. rewrite Hp1, Hp2. exact Hd.
Qed.

Lemma handler_always_suppresses_witness :
  let event := mkKeyboardEvent false true true "Dead" 76 in
  let w := page [] None [] two_toggles ∅ blocked_storage in
  outcome (handleKeyboardShortcut event) w = Val tt /\
  default_prevented (run (handleKeyboardShortcut event) w) = true /\
  propagation_stopped (run (handleKeyboardShortcut event) w) = true.
Proof.
  intros event w.
  exact (handler_always_suppresses event w (or_intror eq_refl) eq_refl
           (or_intror (or_intror eq_refl))).
Defined.

(** ** The search on its own terms *)

(** X11: what the search clicks is a control.  When no access of the
    search raises and the search over the whole document, root elements
    included, finds an element, the search clicks exactly that element and
    answers [true]; the element is one of the page's elements and rendered,
    and it is matched by a selector of the list or is a button whose first
    [<svg>] carries a hint; in particular a host control exists. *)
Theorem search_clicks_only_controls (w : World) (b : Element) :
  search_accessible w ->
  host_control (document_elements w) = Some b ->
  clickThemeToggleButton w = (Val true, set_clicks (clicks w ++ [b]) w) /\
  In b (elements w) /\ rendered b = true /\
  ((exists sel, In sel selectors /\ matches sel b = true) \/
   (is_button b = true /\
    exists s, head (svgs b) = Some s /\ has_icon_hint (toLowerCase s) = true)) /\
  control_exists (elements w) = true.
Proof.
  intros Hq Hh.
  split; [rewrite (clickThemeToggleButton_quiet w Hq), Hh; reflexivity|].
  unfold host_control in Hh. rewrite buttons_of_document in Hh.
  unfold control_exists.
  destruct (first_selector_hit (document_elements w) selectors) as [x|] eqn:Hs.
  - injection Hh as ->.
    apply first_selector_hit_sound in Hs. destruct Hs as (sel & Hsel & Hdoc & Hm & Hr).
    pose proof (document_rendered_in w b Hdoc Hr) as Hin.
    repeat split; [exact Hin|exact Hr|left; exists sel; tauto|].
    apply orb_true_iff. left. apply existsb_exists. exists sel. split; [exact Hsel|].
    apply existsb_exists. exists b. rewrite Hm, Hr. tauto.
  - apply find_some in Hh. destruct Hh as [Hin Hi].
    apply filter_In in Hin. destruct Hin as [Hin Hb].
    unfold icon_button in Hi. apply andb_true_iff in Hi. destruct Hi as [Hr Hi].
    destruct (head (svgs b)) as [s|] eqn:Hsv; [|discriminate].
    repeat split; [exact Hin|exact Hr|right; split; [exact Hb|exists s; tauto]|].
    apply orb_true_iff. right. apply existsb_exists. exists b. split; [exact Hin|].
    rewrite Hb, Hr. simpl. apply existsb_exists. exists s. split; [|exact Hi].
    destruct (svgs b); [discriminate|]. injection Hsv as ->. left. reflexivity.
Qed.

Lemma search_clicks_only_controls_witness :
  let w := page ["docs"] None ["theme-toggle-host"] [hidden_toggle; icon_toggle] ∅
             never_raises in
  search_accessible w /\
  host_control (document_elements w) = Some icon_toggle /\
  clickThemeToggleButton w = (Val true, set_clicks [icon_toggle] w).
Proof.
  intros w.
  assert (Hq : search_accessible w) by (intros a _; reflexivity).
  assert (Hh : host_control (document_elements w) = Some icon_toggle)
    by (vm_compute; reflexivity).
  split; [exact Hq|]. split; [exact Hh|].
  exact (proj1 (search_clicks_only_controls w icon_toggle Hq Hh)).
Defined.



(** X13: a selector query that raises only costs that selector.  When every
    selector query raises and the rest of the search does not, the search
    still goes through the buttons: it clicks the first rendered button
    whose first [<svg>] carries a hint and answers [true], or answers
    [false] when there is none; it logs nothing either way. *)
Theorem search_falls_back_to_icons (w : World) :
  only_selectors_raise w ->
  let hit := List.find icon_button (List.filter is_button (elements w)) in
  outcome clickThemeToggleButton w =
    Val (match hit with Some _ => true | None => false end) /\
  clicks (run clickThemeToggleButton w) = clicks w ++ clicked hit /\
  console (run clickThemeToggleButton w) = console w.
Proof.
  intros (Hs & Ha & Hb) hit. subst hit.
  unfold clickThemeToggleButton, outcome, run.
  destruct (selector_loop_all_raise selectors w Hs) as (l & El).
  unfold bind at 1 3 5. rewrite El.
  unfold try_catch, bind, querySelectorAll_button, access. simpl.
  rewrite Ha.
  rewrite (icon_loop_found _ (set_thrown (thrown w ++ l) w) Hb).
  rewrite document_set_thrown, buttons_of_document. simpl.
  destruct (List.find icon_button (List.filter is_button (elements w))); simpl;
    rewrite ?app_nil_r; auto.
Qed.

Lemma search_falls_back_to_icons_witness :
  only_selectors_raise legacy_page /\
  outcome clickThemeToggleButton legacy_page = Val true /\
  clicks (run clickThemeToggleButton legacy_page) = [icon_toggle].
Proof.
  assert (H : only_selectors_raise legacy_page).
  { split; [intros sel; discriminate|]. split; [reflexivity|].
    intros b. repeat split. }
  split; [exact H|].
  pose proof (search_falls_back_to_icons legacy_page H) as H'.
  split; [exact (proj1 H')|exact (proj1 (proj2 H'))].
Defined.

(** X14: the search touches nothing but the page's buttons.  In every
    environment it leaves classes, [data-theme], storage, console and events
    as they were, and it clicks nothing or exactly one element, which is then
    a rendered element of the page. *)
Theorem search_changes_nothing_but_clicks (w : World) :
  search_frame w (run clickThemeToggleButton w) /\
  (clicks (run clickThemeToggleButton w) = clicks w \/
   exists b, clicks (run clickThemeToggleButton w) = clicks w ++ [b] /\
             In b (elements w) /\ rendered b = true).
Proof.
  destruct (clickThemeToggleButton_result w) as (b & w' & E & F & C).
  unfold run. rewrite E. simpl. split; [exact F|].
  destruct b; [right; exact C|left; exact C].
Qed.

(** ** Start-up *)

(** X15: loaded into a document that is no longer loading, the script
    applies the saved theme and registers the key handler at once; it does so
    in every environment, because nothing escapes [applySavedTheme] that
    could skip the registration. *)
Theorem main_when_ready (d : Document) :
  readyState d <> Loading ->
  main d = (Val tt, mkDocument (readyState d) (domContentLoaded_listener d) true
                      (run applySavedTheme (world d))).
Proof.
  intros Hr. unfold main.
  destruct (readyState d) eqn:E; [contradiction| |];
    rewrite init_runs_apply, E; reflexivity.
Qed.

Lemma main_when_ready_witness :
  let d := mkDocument Complete false false
             (page [] None [] [] stored_dark blocked_storage) in
  readyState d <> Loading /\
  keydown_listener (snd (main d)) = true /\
  console (world (snd (main d))) = [("Could not apply saved theme:", SecurityError)].
Proof.
  intros d.
  assert (Hr : readyState d <> Loading) by discriminate.
  split; [exact Hr|].
  rewrite (main_when_ready d Hr). split; reflexivity.
Defined.

(** X16: loaded into a document that is still loading, the script only
    waits: it touches nothing and key presses are not handled yet.  When
    [DOMContentLoaded] fires, the world and the key handler are what a
    start in the loaded document would have given. *)
Theorem main_defers_while_loading (d : Document) :
  readyState d = Loading ->
  keydown_listener d = false ->
  world (snd (main d)) = world d /\
  (forall event, fire_keydown event (snd (main d)) = snd (main d)) /\
  world (fire_DOMContentLoaded (snd (main d))) = run applySavedTheme (world d) /\
  keydown_listener (fire_DOMContentLoaded (snd (main d))) = true /\
  readyState (fire_DOMContentLoaded (snd (main d))) = Interactive.
Proof.
  intros Hr Hk. unfold main. rewrite Hr. simpl.
  split; [reflexivity|].
  split; [intros event; unfold fire_keydown; simpl; rewrite Hk; reflexivity|].
  unfold fire_DOMContentLoaded. simpl.
  rewrite init_runs_apply. simpl. auto.
Qed.

Lemma main_defers_while_loading_witness :
  let d := mkDocument Loading false false (page [] None [] [] stored_dark never_raises) in
  readyState d = Loading /\ keydown_listener d = false /\
  world (snd (main d)) = world d /\
  presentation (world (fire_DOMContentLoaded (snd (main d)))) = all_dark.
Proof.
  intros d.
  pose proof (main_defers_while_loading d eq_refl eq_refl) as H.
  split; [reflexivity|]. split; [reflexivity|].
  split; [exact (proj1 H)|].
  rewrite (proj1 (proj2 (proj2 H))). reflexivity.
Defined.

(** X17: a whole visit.  In a loaded document where nothing raises, with
    ["dark"] or ["light"] saved under the first key and no host control on
    the page, starting the script and pressing the shortcut shows the other
    theme and saves it under both keys. *)
Theorem visit_toggles_saved_theme (d : Document) (event : KeyboardEvent) (dark : bool) :
  readyState d <> Loading ->
  (forall a, raises (world d) a = None) ->
  storage (world d) !! THEME_STORAGE_KEY = Some (theme_name dark) ->
  host_control (elements (world d)) = None ->
  is_shortcut event = true ->
  let w' := world (fire_keydown event (snd (main d))) in
  presentation w' = (if dark then all_light else all_dark) /\
  storage w' !! THEME_STORAGE_KEY = Some (theme_name (negb dark)) /\
  storage w' !! MINTLIFY_THEME_KEY = Some (theme_name (negb dark)).
Proof.
  intros Hr Hq Hs Hh He.
  assert (Hm : snd (main d) =
                 mkDocument (readyState d) (domContentLoaded_listener d) true
                   (run applySavedTheme (world d))).
  { unfold main. destruct (readyState d) eqn:E; [contradiction| |];
      rewrite init_runs_apply, E; reflexivity. }
  rewrite Hm. unfold fire_keydown. cbn [keydown_listener world].
  set (w1 := run applySavedTheme (world d)).
  destruct (applySavedTheme_frame (world d)) as (Fe & Fr & Fs & _). fold w1 in Fe, Fr, Fs.
  assert (Hp1 : presentation w1 = (if dark then all_dark else all_light)).
  { unfold w1. rewrite (applySavedTheme_first_key (world d) (theme_name dark)
                         (proj2 (quiet_returns _ Hq)) Hs)
      by (destruct dark; discriminate).
    destruct dark; reflexivity. }
  assert (Hq1 : forall a, raises (set_suppressed w1) a = None)
    by (intros a; simpl; rewrite Fr; apply Hq).
  assert (Hsa : search_accessible (set_suppressed w1)) by (intros a _; apply Hq1).
  pose proof (clickThemeToggleButton_quiet _ Hsa) as Ec.
  assert (Hn : host_control (document_elements (set_suppressed w1)) = None).
  { apply host_control_document_none. simpl. rewrite Fe. exact Hh. }
  rewrite Hn in Ec. simpl in Ec.
  unfold handleKeyboardShortcut, run at 1 2 3. rewrite He.
  unfold bind, suppress_event. rewrite Ec. simpl.
  destruct (toggleTheme_success (set_suppressed w1) (proj1 (quiet_returns _ Hq1)))
    as (K1 & K2 & P).
  assert (Hd : is_dark (set_suppressed w1) = dark).
  { destruct dark.
    - exact (is_dark_presentation (set_suppressed w1) dark_page Hp1).
    - exact (is_dark_presentation (set_suppressed w1) light_page Hp1). }
  rewrite Hd in *. unfold run in *. auto.
Qed.

Lemma visit_toggles_saved_theme_witness :
  let d := mkDocument Complete false false
             (page [] None [] [] (<[THEME_STORAGE_KEY := "dark"]> ∅) never_raises) in
  readyState d <> Loading /\
  presentation (world (fire_keydown ctrl_shift_L (snd (main d)))) = all_light /\
  storage (world (fire_keydown ctrl_shift_L (snd (main d)))) !! MINTLIFY_THEME_KEY =
    Some "light".
Proof.
  intros d.
  assert (Hr : readyState d <> Loading) by discriminate.
  split; [exact Hr|].
  pose proof (visit_toggles_saved_theme d ctrl_shift_L true Hr
                (fun _ => eq_refl) eq_refl eq_refl eq_refl) as H.
  split; [exact (proj1 H)|exact (proj2 (proj2 H))].
Defined.

(** ** The handler's two ways *)

(** X18: on the shortcut the handler runs the search and then the manual
    toggle exactly when the search answered [false], in every environment.
    When the search answered [true] it clicked one rendered element of the
    page and the handler wrote nothing: storage, presentation attributes,
    console and events are as before. *)
Theorem shortcut_prefers_host_control (event : KeyboardEvent) (w : World) :
  is_shortcut event = true ->
  (exists b w1, clickThemeToggleButton (set_suppressed w) = (Val b, w1)) /\
  (forall w1, clickThemeToggleButton (set_suppressed w) = (Val true, w1) ->
     run (handleKeyboardShortcut event) w = w1 /\
     (exists b, clicks w1 = clicks w ++ [b] /\ In b (elements w) /\ rendered b = true) /\
     same_page_and_storage w w1 /\
     console w1 = console w /\
     document_events w1 = document_events w /\
     window_events w1 = window_events w) /\
  (forall w1, clickThemeToggleButton (set_suppressed w) = (Val false, w1) ->
     run (handleKeyboardShortcut event) w = run toggleTheme w1 /\
     clicks (run (handleKeyboardShortcut event) w) = clicks w).
Proof.
  intros Hs.
  assert (Hrun : forall b w1,
             clickThemeToggleButton (set_suppressed w) = (Val b, w1) ->
             run (handleKeyboardShortcut event) w =
             if b then w1 else run toggleTheme w1).
  { intros b w1 E. unfold handleKeyboardShortcut, run. rewrite Hs.
    unfold bind, suppress_event. rewrite E. destruct b; reflexivity. }
  destruct (clickThemeToggleButton_result (set_suppressed w)) as (b0 & w0 & E0 & F0 & C0).
  split; [exists b0, w0; exact E0|].
  split.
  - intros w1 E. rewrite (Hrun _ _ E).
    rewrite E in E0. injection E0 as <- <-.
    unfold search_frame in F0. simpl in F0, C0.
    unfold same_page_and_storage. tauto.
  - intros w1 E. rewrite (Hrun _ _ E).
    rewrite E in E0. injection E0 as <- <-.
    split; [reflexivity|]. rewrite toggleTheme_clicks. exact C0.
Qed.

Lemma shortcut_prefers_host_control_witness :
  let w := page [] None [] [hidden_toggle; icon_toggle] ∅ never_raises in
  let w1 := set_clicks [icon_toggle] (set_suppressed w) in
  is_shortcut ctrl_shift_L = true /\
  clickThemeToggleButton (set_suppressed w) = (Val true, w1) /\
  run (handleKeyboardShortcut ctrl_shift_L) w = w1 /\
  same_page_and_storage w w1.
Proof.
  intros w w1.
  assert (E : clickThemeToggleButton (set_suppressed w) = (Val true, w1))
    by (vm_compute; reflexivity).
  split; [reflexivity|]. split; [exact E|].
  pose proof (proj1 (proj2 (shortcut_prefers_host_control ctrl_shift_L w eq_refl)) w1 E) as H.
  split; [exact (proj1 H)|exact (proj1 (proj2 (proj2 H)))].
Defined.
